(** * native_platform: a federated platform implemented using native components

    Shallow embedding of
    [tensorflow_federated/python/program/native_platform.py] and the
    properties of its value references, its type-directed structure walkers,
    its federated context and its dataset-backed data source. *)

From Stdlib Require Import ZArith Lia.
From stdpp Require Import base tactics option list strings.

Set Warnings "-register-all".

(** ** Exceptions and outcomes *)

(** The exceptions this module raises itself; [CollaboratorError] for
    whatever an external collaborator (execution engine, container
    conversion) raised while it was called; [ReferenceError] for a reference
    that designates no object of the expected class, which no Python program
    can build. *)
Inductive exn : Type :=
| ValueError (msg : string)
| TypeError (msg : string)
| NotImplementedError (msg : string)
| IndexError (msg : string)
| UnboundLocalError (msg : string)
| ReferenceError (msg : string)
| CollaboratorError (what : string).

Inductive py_result (A : Type) : Type :=
| Ok (a : A)
| Raise (e : exn).
Arguments Ok {A} a.
Arguments Raise {A} e.

#[export] Instance py_result_ret : MRet py_result := @Ok.
#[export] Instance py_result_bind : MBind py_result := fun A B f r =>
  match r with
  | Ok a => f a
  | Raise e => Raise e
  end.

Definition is_Ok {A} (r : py_result A) : Prop := exists a, r = Ok a.

(** A computation over a mutable state [St] that may raise. *)
Definition M (St A : Type) : Type := St -> py_result A * St.

#[export] Instance M_ret St : MRet (M St) := fun A a s => (Ok a, s).
#[export] Instance M_bind St : MBind (M St) := fun A B f m s =>
  match m s with
  | (Ok a, s') => f a s'
  | (Raise e, s') => (Raise e, s')
  end.

Definition raise {St A} (e : exn) : M St A := fun s => (Raise e, s).
Definition lift {St A} (r : py_result A) : M St A := fun s => (r, s).

(** ** computation_types: type signatures (external, consumed) *)

Inductive placement : Type := CLIENTS | SERVER.

#[export] Instance placement_eq_dec : EqDecision placement.
Proof. solve_decision. Defined.

Inductive tff_type : Type :=
| TensorType (dtype : string) (shape : list Z)
| StructType (elements : list (option string * tff_type))
| SequenceType (element : tff_type)
| FederatedType (member : tff_type) (placement : placement)
| FunctionType (parameter : option tff_type) (result : tff_type)
| AbstractType (label : string)
| PlacementType.

Definition is_struct (t : tff_type) : bool :=
  match t with StructType _ => true | _ => false end.
Definition is_federated (t : tff_type) : bool :=
  match t with FederatedType _ _ => true | _ => false end.
Definition is_sequence (t : tff_type) : bool :=
  match t with SequenceType _ => true | _ => false end.
Definition is_tensor (t : tff_type) : bool :=
  match t with TensorType _ _ => true | _ => false end.

(** Structural induction that reaches the fields of a struct type and the
    optional parameter of a function type. *)
Section tff_type_induction.
Variable P : tff_type -> Prop.
Hypothesis H_tensor : forall d s, P (TensorType d s).
Hypothesis H_struct :
  forall es, Forall (fun e => P e.2) es -> P (StructType es).
Hypothesis H_sequence : forall t, P t -> P (SequenceType t).
Hypothesis H_federated : forall t p, P t -> P (FederatedType t p).
Hypothesis H_function :
  forall p r, from_option P True p -> P r -> P (FunctionType p r).
Hypothesis H_abstract : forall l, P (AbstractType l).
Hypothesis H_placement : P PlacementType.

Fixpoint tff_type_nested_ind (t : tff_type) : P t :=
  match t with
  | TensorType d s => H_tensor d s
  | StructType es =>
      H_struct es
        ((fix fields (es : list (option string * tff_type)) :
            Forall (fun e => P e.2) es :=
            match es with
            | [] => List.Forall_nil _
            | e :: es' =>
                List.Forall_cons _ e es'
                  (tff_type_nested_ind e.2) (fields es')
            end) es)
  | SequenceType t' => H_sequence t' (tff_type_nested_ind t')
  | FederatedType t' p => H_federated t' p (tff_type_nested_ind t')
  | FunctionType p r =>
      H_function p r
        (match p as p0 return from_option P True p0 with
         | Some t0 => tff_type_nested_ind t0
         | None => I
         end)
        (tff_type_nested_ind r)
  | AbstractType l => H_abstract l
  | PlacementType => H_placement
  end.
End tff_type_induction.

(** [==] on type signatures: structural equality. *)
Fixpoint type_eqb (a b : tff_type) {struct a} : bool :=
  match a, b with
  | TensorType d s, TensorType d' s' =>
      bool_decide (d = d') && bool_decide (s = s')
  | StructType es, StructType es' =>
      (fix fields (es es' : list (option string * tff_type)) : bool :=
         match es, es' with
         | [], [] => true
         | (n, t) :: r, (n', t') :: r' =>
             bool_decide (n = n') && type_eqb t t' && fields r r'
         | _, _ => false
         end) es es'
  | SequenceType t, SequenceType t' => type_eqb t t'
  | FederatedType t p, FederatedType t' p' =>
      type_eqb t t' && bool_decide (p = p')
  | FunctionType p r, FunctionType p' r' =>
      match p, p' with
      | Some t, Some t' => type_eqb t t'
      | None, None => true
      | _, _ => false
      end && type_eqb r r'
  | AbstractType l, AbstractType l' => bool_decide (l = l')
  | PlacementType, PlacementType => true
  | _, _ => false
  end.

(** [!=] on type signatures. *)
Definition type_ne (a b : tff_type) : bool := negb (type_eqb a b).

(** [str(type_signature)], the rendering the type system gives a type in
    messages; it belongs to the external type library. *)
Class TypeRepr := type_repr : tff_type -> string.

(** [py_typecheck.check_type]: raises [TypeError] unless the object is an
    instance of the expected class. *)
Definition check_type (is_instance : bool) (expected : string) : py_result unit :=
  if is_instance then Ok tt else Raise (TypeError ("Expected " +:+ expected +:+ ".")).

(** ** Python values handled by the walkers *)

(** What a [value: Any] can be here: opaque numpy data (a scalar, an array or
    an iterable of them), a [NumpyValueReference], a [structure.Struct], or a
    Python container (list or tuple, [collections.OrderedDict]). *)
Inductive py_value (raw : Type) : Type :=
| Raw (d : raw)
| NumpyValueRef (_value : py_value raw) (_type_signature : tff_type)
| Struct (elements : list (option string * py_value raw))
| PyList (items : list (py_value raw))
| PyOrderedDict (items : list (string * py_value raw)).
Arguments Raw {raw} d.
Arguments NumpyValueRef {raw} _value _type_signature.
Arguments Struct {raw} elements.
Arguments PyList {raw} items.
Arguments PyOrderedDict {raw} items.

Module structure.
Section structure.
Context {raw : Type}.

(** Modelled from the spec: [structure.from_container], of
    [common_libs/structure.py], whose source is not at hand. "Coerce value into the canonical ordered-named-field form": a
    [Struct] is returned as it is, a list or tuple becomes a [Struct] of
    unnamed fields, an ordered dictionary a [Struct] of fields named by its
    keys, in order; anything that is not a container raises [TypeError].
    The conversion is not recursive. The result is given as the element
    list of the [Struct]. *)
Definition from_container (value : py_value raw)
  : py_result (list (option string * py_value raw)) :=
  match value with
  | Struct elements => Ok elements
  | PyList items => Ok (map (fun x => (None, x)) items)
  | PyOrderedDict items => Ok (map (fun kv => (Some kv.1, kv.2)) items)
  | _ => Raise (TypeError "Expected a container.")
  end.

(** Modelled from the spec: iterating a [Struct] ([Struct.__iter__], what
    [zip] consumes) yields its element values in order, without names. *)
Definition iter (s : list (option string * py_value raw)) : list (py_value raw) :=
  map snd s.

(** Modelled from the spec: [structure.iter_elements] yields the
    [(name, element)] pairs of a [Struct] (a struct type is one) in order
    ("field iteration with names"). *)
Definition iter_elements {A} (s : list (option string * A))
  : list (option string * A) := s.
End structure.
End structure.

(** ** NumpyValueReference *)

Module NumpyValueReference.
Section NumpyValueReference.
Context {raw : Type}.

Definition __init__ (value : py_value raw) (type_signature : tff_type)
  : py_result (py_value raw) :=
  _ ← check_type (is_tensor type_signature || is_sequence type_signature)
        "TensorType or SequenceType";
  Ok (NumpyValueRef value type_signature).

Definition type_signature (self : py_value raw) : option tff_type :=
  match self with NumpyValueRef _ t => Some t | _ => None end.

Definition get_value (self : py_value raw) : option (py_value raw) :=
  match self with NumpyValueRef v _ => Some v | _ => None end.

(** What [__eq__] returns: a Python bool, [NotImplemented], or the object
    that [==] on the raw values returned (for arrays an array, not a bool). *)
Inductive eq_result : Type :=
| PyBool (b : bool)
| NotImplemented
| Compared (r : py_value raw).

(** A [NumpyValueReference] as [self]: its identity and its two fields. *)
Record instance := {
  id : nat;
  _value : py_value raw;
  _type_signature : tff_type
}.

Section eq.
Context {St : Type}.

(** The array runtime. [py_eq x y] is [x == y]: the object it returns, or
    what it raises. [truth r] is [bool(r)], which also may raise. [py_list x]
    is [list(x)]: it returns the elements with their identities, may raise,
    and may change the state, as on an iterable that can be read once. *)
Variable py_eq : py_value raw -> py_value raw -> py_result (py_value raw).
Variable truth : py_value raw -> py_result bool.
Variable py_list : py_value raw -> M St (list (nat * py_value raw)).

(** The comparison of two elements inside [list == list]: the same object is
    equal to itself without [==] being asked; otherwise the truth value of
    what [==] returns. *)
Definition item_eq (x y : nat * py_value raw) : py_result bool :=
  if bool_decide (x.1 = y.1) then Ok true
  else (r ← py_eq (x.2) (y.2); truth r).

(** The search of [list == list] for the first pair of different elements;
    when one list runs out, the lists are equal if both do. *)
Fixpoint items_eq (l l' : list (nat * py_value raw)) : py_result bool :=
  match l, l' with
  | [], [] => Ok true
  | x :: r, y :: r' =>
      c ← item_eq x y;
      (if c : bool then items_eq r r' else Ok false)
  | _, _ => Ok false
  end.

(** [==] on two Python lists: lists of different lengths differ; otherwise
    the elements decide. *)
Definition list_eq (l l' : list (nat * py_value raw)) : py_result bool :=
  if bool_decide (length l = length l') then items_eq l l' else Ok false.

(** [other] is any object, given with its identity. *)
Definition __eq__ (self : instance) (other : nat * py_value raw)
  : M St eq_result :=
  if bool_decide (id self = other.1) then mret (PyBool true)
  else
    match other.2 with
    | NumpyValueRef other_value other_type_signature =>
        if type_ne (_type_signature self) other_type_signature
        then mret (PyBool false)
        else if is_sequence (_type_signature self)
        then
          l ← py_list (_value self);
          l' ← py_list other_value;
          b ← lift (list_eq l l');
          mret (PyBool b)
        else
          r ← lift (py_eq (_value self) other_value);
          mret (Compared r)
    | _ => mret NotImplemented
    end.
End eq.
End NumpyValueReference.
End NumpyValueReference.

(** ** The structural type walkers *)

Section walkers.
Context {raw : Type} `{!TypeRepr}.

(** Wrap: returns a structure of [NumpyValueReference]s. *)
Fixpoint _create_structure_of_value_references
    (value : py_value raw) (type_signature : tff_type) {struct type_signature}
  : py_result (py_value raw) :=
  match type_signature with
  | StructType fields =>
      value ← structure.from_container value;
      elements ←
        (fix zip_loop (element_types : list (option string * tff_type))
             (values : list (py_value raw)) {struct element_types}
           : py_result (list (option string * py_value raw)) :=
           match values, element_types with
           | element :: values', (name, element_type) :: element_types' =>
               element ← _create_structure_of_value_references element element_type;
               elements ← zip_loop element_types' values';
               Ok ((name, element) :: elements)
           | _, _ => Ok []
           end) (structure.iter_elements fields) (structure.iter value);
      Ok (Struct elements)
  | FederatedType member _ =>
      _create_structure_of_value_references value member
  | SequenceType _ => NumpyValueReference.__init__ value type_signature
  | TensorType _ _ => NumpyValueReference.__init__ value type_signature
  | _ =>
      Raise (NotImplementedError
               ("Unexpected type found: " +:+ type_repr type_signature +:+ "."))
  end.

Definition _materialize (x : py_value raw) : py_value raw :=
  match x with
  | NumpyValueRef v _ => v
  | _ => x
  end.

(** Unwrap: returns a structure of materialized [NumpyValueReference]s. *)
Fixpoint _materialize_structure_of_value_references
    (value : py_value raw) (type_signature : tff_type) {struct type_signature}
  : py_result (py_value raw) :=
  match type_signature with
  | StructType fields =>
      value ← structure.from_container value;
      elements ←
        (fix zip_loop (element_types : list (option string * tff_type))
             (values : list (py_value raw)) {struct element_types}
           : py_result (list (option string * py_value raw)) :=
           match values, element_types with
           | element :: values', (name, element_type) :: element_types' =>
               element ← _materialize_structure_of_value_references element element_type;
               elements ← zip_loop element_types' values';
               Ok ((name, element) :: elements)
           | _, _ => Ok []
           end) (structure.iter_elements fields) (structure.iter value);
      Ok (Struct elements)
  | FederatedType member _ =>
      _materialize_structure_of_value_references value member
  | SequenceType _ => Ok (_materialize value)
  | TensorType _ _ => Ok (_materialize value)
  | _ => Ok value
  end.
End walkers.

(** ** federated_context: the result-type predicate *)

Module federated_context.
(** Modelled from the spec: [type_analysis.contains_only], whose source is
    not at hand. It holds when the predicate accepts the type and every type
    nested in it ("recursively"). *)
Fixpoint contains_only (predicate : tff_type -> bool) (t : tff_type) : bool :=
  predicate t &&
  match t with
  | StructType fields => forallb (fun e => contains_only predicate e.2) fields
  | SequenceType element => contains_only predicate element
  | FederatedType member _ => contains_only predicate member
  | FunctionType parameter result =>
      from_option (contains_only predicate) true parameter
      && contains_only predicate result
  | _ => true
  end.

(** Modelled from the spec: [contains_only_server_placed_data], of
    [program/federated_context.py], whose source is not at hand. "The
    computation's declared result type must contain only {struct,
    server-placed federated value, tensor} kinds recursively". *)
Definition contains_only_server_placed_data (type_signature : tff_type) : bool :=
  contains_only
    (fun type_spec =>
       is_struct type_spec
       || match type_spec with
          | FederatedType _ placement => bool_decide (placement = SERVER)
          | _ => false
          end
       || is_tensor type_spec)
    type_signature.
End federated_context.

(** ** computation_base and context_base: the external collaborators *)

Module computation_base.
(** The [tff.FunctionType] of a computation. *)
Record function_type := {
  parameter : option tff_type;
  result : tff_type
}.

Record Computation := {
  name : string;
  type_signature : function_type
}.
End computation_base.

(** What a call into a collaborator comes back with. *)
Inductive collaborator_result (A : Type) : Type :=
| Returned (a : A)
| Failed (what : string).
Arguments Returned {A} a.
Arguments Failed {A} what.

Definition from_collaborator {A} (r : collaborator_result A) : py_result A :=
  match r with
  | Returned a => Ok a
  | Failed what => Raise (CollaboratorError what)
  end.

Module context_base.
(** A [tff.framework.Context]: the execution engine, with a state [E] of
    its own that its two methods may read and change. *)
Record Context (raw E : Type) := {
  ingest : py_value raw -> tff_type -> E -> collaborator_result (py_value raw) * E;
  invoke : computation_base.Computation -> py_value raw -> E
           -> collaborator_result (py_value raw) * E
}.
Arguments ingest {raw E} _ _ _ _.
Arguments invoke {raw E} _ _ _ _.
End context_base.

(** [type_conversions.type_to_py_container], the native container conversion. *)
Class ContainerConversion (raw : Type) :=
  type_to_py_container : py_value raw -> tff_type -> collaborator_result (py_value raw).

(** ** NativeFederatedContext *)

(** The calls that reached the execution engine, oldest first. *)
Inductive engine_call (raw : Type) : Type :=
| CallIngest (value : py_value raw) (type_spec : tff_type)
| CallInvoke (comp : computation_base.Computation) (arg : py_value raw).
Arguments CallIngest {raw} value type_spec.
Arguments CallInvoke {raw} comp arg.

Record world (raw E : Type) := {
  engine_state : E;
  calls : list (engine_call raw)
}.
Arguments engine_state {raw E} _.
Arguments calls {raw E} _.

Definition is_ingest_call {raw} (c : engine_call raw) : bool :=
  match c with CallIngest _ _ => true | CallInvoke _ _ => false end.
Definition is_invoke_call {raw} (c : engine_call raw) : bool :=
  match c with CallInvoke _ _ => true | CallIngest _ _ => false end.
Definition count_calls {raw} (which : engine_call raw -> bool)
    (log : list (engine_call raw)) : nat :=
  length (filter (fun c => which c = true) log).

Module NativeFederatedContext.
Section NativeFederatedContext.
Context {raw E : Type} `{!TypeRepr} `{!ContainerConversion raw}.

Record t := { _context : context_base.Context raw E }.

Definition __init__ (context : context_base.Context raw E) : t :=
  {| _context := context |}.

(** [self._context.ingest(...)] and [self._context.invoke(...)]: the call
    runs in the engine and is recorded. *)
Definition context_ingest (self : t) (value : py_value raw) (type_spec : tff_type)
  : M (world raw E) (py_value raw) := fun w =>
  let (r, s) := context_base.ingest (_context self) value type_spec (engine_state w) in
  (from_collaborator r,
   {| engine_state := s; calls := calls w ++ [CallIngest value type_spec] |}).

Definition context_invoke (self : t) (comp : computation_base.Computation)
    (arg : py_value raw)
  : M (world raw E) (py_value raw) := fun w =>
  let (r, s) := context_base.invoke (_context self) comp arg (engine_state w) in
  (from_collaborator r,
   {| engine_state := s; calls := calls w ++ [CallInvoke comp arg] |}).

Definition ingest (self : t) (value : py_value raw) (type_spec : tff_type)
  : py_result (py_value raw) :=
  _materialize_structure_of_value_references value type_spec.

Definition result_type_message (result_type : tff_type) : string :=
  "Expected the result type of the invoked computation to contain only "
  +:+ "structures, server-placed values, or tensors, found "
  +:+ "'" +:+ type_repr result_type +:+ "'.".

Definition invoke (self : t) (comp : computation_base.Computation)
    (arg : py_value raw)
  : M (world raw E) (py_value raw) :=
  let result_type :=
    computation_base.result (computation_base.type_signature comp) in
  if negb (federated_context.contains_only_server_placed_data result_type)
  then raise (ValueError (result_type_message result_type))
  else
    arg ← match computation_base.parameter (computation_base.type_signature comp) with
          | Some parameter => context_ingest self arg parameter
          | None => mret arg
          end;
    result ← context_invoke self comp arg;
    result ← lift (_create_structure_of_value_references result result_type);
    result ← lift (from_collaborator (type_to_py_container result result_type));
    mret result.
End NativeFederatedContext.
End NativeFederatedContext.

(** ** Datasets, objects and the Python process state *)

Module tf_data.
(** A [tf.data.Dataset]: an opaque handle with an inspectable element type
    specification, given here as the [tff.Type] that
    [computation_types.to_type] makes of it. *)
Record Dataset := {
  element_spec : tff_type;
  handle : nat
}.
End tf_data.

(** The objects the data source code holds references to. A reference is the
    index of the object in the heap; objects are allocated at its end. *)
Inductive object : Type :=
| ListObject (items : list tf_data.Dataset)
| IteratorObject (_datasets : nat) (_federated_type : tff_type)
| DataSourceObject (_datasets : nat) (_federated_type : tff_type).

(** The generator behind the [random] module: [genrand_res53] steps it and
    gives the integer [m] of the variate [m / 2^53] that [random()] returns. *)
Class Random (G : Type) := genrand_res53 : G -> Z * G.

Record process (G : Type) := {
  heap : list object;
  random_state : G
}.
Arguments heap {G} _.
Arguments random_state {G} _.

Section process.
Context {G : Type}.

Definition load (ref : nat) : M (process G) object := fun p =>
  match heap p !! ref with
  | Some o => (Ok o, p)
  | None => (Raise (ReferenceError "no such object"), p)
  end.

Definition alloc (o : object) : M (process G) nat := fun p =>
  (Ok (length (heap p)),
   {| heap := heap p ++ [o]; random_state := random_state p |}).

(** [datasets.clear()], as a caller that kept the list may run it. *)
Definition list_clear (ref : nat) : M (process G) unit := fun p =>
  match heap p !! ref with
  | Some (ListObject _) =>
      (Ok tt, {| heap := <[ref := ListObject []]> (heap p);
                 random_state := random_state p |})
  | _ => (Raise (ReferenceError "not a list"), p)
  end.
End process.

Module random.
Section random.
Context {G : Type} `{!Random G}.

(** One step of the generator; the variate is [m / 2^53] with
    [0 <= m < 2^53]. *)
Definition random53 : M (process G) Z := fun p =>
  let (m, g) := genrand_res53 (random_state p) in
  (Ok (m mod 2 ^ 53)%Z, {| heap := heap p; random_state := g |}).

(** [random.choices(population, k=k)] without weights:
    [[population[floor(random() * n)] for i in range(k)]], the product
    [random() * n] taken exactly, as [m * n / 2^53]. *)
Fixpoint choices {A} (population : list A) (k : nat) : M (process G) (list A) :=
  match k with
  | O => mret []
  | S k' =>
      m ← random53;
      let n := Z.of_nat (length population) in
      match population !! Z.to_nat (m * n / 2 ^ 53) with
      | Some x => rest ← choices population k'; mret (x :: rest)
      | None => raise (IndexError "list index out of range")
      end
  end.
End random.
End random.

(** The loop both constructors run over the datasets:
    [for dataset in datasets: element_spec = datasets[0].element_spec; ...].
    It carries the local variable [element_spec], unbound before the first
    iteration, and returns it as the loop leaves it. The elements of the list
    are datasets by their type, which is what
    [py_typecheck.check_type(dataset, tf.data.Dataset)] asks. *)
Section same_type_specification.
Context `{!TypeRepr}.

Definition type_specification_message (element_spec other : tff_type) : string :=
  "Expected each `tf.data.Dataset` in `datasets` to "
  +:+ "have the same type specification, found "
  +:+ "'" +:+ type_repr element_spec +:+ "' and '" +:+ type_repr other +:+ "'.".

Fixpoint for_dataset_in_datasets (datasets remaining : list tf_data.Dataset)
    (element_spec : option tff_type) : py_result (option tff_type) :=
  match remaining with
  | [] => Ok element_spec
  | dataset :: remaining' =>
      match datasets !! 0%nat with
      | None => Raise (IndexError "list index out of range")
      | Some first =>
          let element_spec := tf_data.element_spec first in
          if type_ne (tf_data.element_spec dataset) element_spec
          then Raise (ValueError
                        (type_specification_message element_spec
                           (tf_data.element_spec dataset)))
          else for_dataset_in_datasets datasets remaining' (Some element_spec)
      end
  end.
End same_type_specification.

Definition empty_list_message : string :=
  "Expected `datasets` to not be an empty list.".

(** ** DatasetDataSourceIterator *)

Module DatasetDataSourceIterator.
Section DatasetDataSourceIterator.
Context {G : Type} `{!Random G} `{!TypeRepr}.

(** The constructor call [DatasetDataSourceIterator(datasets,
    federated_type)]: the checks of [__init__], then the new object with its
    two fields. *)
Definition __init__ (datasets : nat) (federated_type : tff_type)
  : M (process G) nat :=
  o ← load datasets;
  match o with
  | ListObject items =>
      match items with
      | [] => raise (ValueError empty_list_message)
      | _ =>
          _ ← lift (for_dataset_in_datasets items items None);
          _ ← lift (check_type (is_federated federated_type) "FederatedType");
          alloc (IteratorObject datasets federated_type)
      end
  | _ => raise (TypeError "Expected collections.abc.Sequence.")
  end.

Definition fields (self : nat) : M (process G) (nat * tff_type) :=
  o ← load self;
  match o with
  | IteratorObject datasets federated_type => mret (datasets, federated_type)
  | _ => raise (ReferenceError "not a DatasetDataSourceIterator")
  end.

Definition federated_type (self : nat) : M (process G) tff_type :=
  f ← fields self; mret f.2.

Definition select_message : string :=
  "Expected `number_of_clients` to be a positive integer "
  +:+ "and less than the number of `datasets`.".

(** [self._datasets], read through the reference the iterator holds. *)
Definition _datasets (self : nat) : M (process G) (list tf_data.Dataset) :=
  f ← fields self;
  o ← load f.1;
  match o with
  | ListObject datasets => mret datasets
  | _ => raise (ReferenceError "not a list")
  end.

Definition select (self : nat) (number_of_clients : option Z)
  : M (process G) (list tf_data.Dataset) :=
  match number_of_clients with
  | None => raise (ValueError select_message)
  | Some k =>
      if (k <? 0)%Z then raise (ValueError select_message)
      else
        datasets ← _datasets self;
        if (k >? Z.of_nat (length datasets))%Z
        then raise (ValueError select_message)
        else random.choices datasets (Z.to_nat k)
  end.
End DatasetDataSourceIterator.
End DatasetDataSourceIterator.

(** ** DatasetDataSource *)

Module data_source.
Inductive Capability : Type := RANDOM_UNIFORM.
End data_source.

Module DatasetDataSource.
Section DatasetDataSource.
Context {G : Type} `{!Random G} `{!TypeRepr}.

Definition __init__ (datasets : nat) : M (process G) nat :=
  o ← load datasets;
  match o with
  | ListObject items =>
      match items with
      | [] => raise (ValueError empty_list_message)
      | _ =>
          element_spec ← lift (for_dataset_in_datasets items items None);
          match element_spec with
          | Some element_spec =>
              alloc (DataSourceObject datasets
                       (FederatedType (SequenceType element_spec) CLIENTS))
          | None => raise (UnboundLocalError "element_spec")
          end
      end
  | _ => raise (TypeError "Expected collections.abc.Sequence.")
  end.

Definition fields (self : nat) : M (process G) (nat * tff_type) :=
  o ← load self;
  match o with
  | DataSourceObject datasets federated_type => mret (datasets, federated_type)
  | _ => raise (ReferenceError "not a DatasetDataSource")
  end.

Definition federated_type (self : nat) : M (process G) tff_type :=
  f ← fields self; mret f.2.

Definition capabilities (self : nat) : M (process G) (list data_source.Capability) :=
  mret [data_source.RANDOM_UNIFORM].

Definition iterator (self : nat) : M (process G) nat :=
  f ← fields self;
  DatasetDataSourceIterator.__init__ f.1 f.2.
End DatasetDataSource.
End DatasetDataSource.

(** ** Vocabulary of the properties *)

Section vocabulary.
Context {raw : Type} `{!TypeRepr}.

(** The loop of both walkers, over the walker [f] applied to each pair:
    it stops when the values or the fields of the type run out. *)
Section zip_walk.
Variable f : py_value raw -> tff_type -> py_result (py_value raw).

Fixpoint zip_walk (element_types : list (option string * tff_type))
    (values : list (py_value raw)) {struct element_types}
  : py_result (list (option string * py_value raw)) :=
  match values, element_types with
  | element :: values', (name, element_type) :: element_types' =>
      element ← f element element_type;
      elements ← zip_walk element_types' values';
      Ok ((name, element) :: elements)
  | _, _ => Ok []
  end.
End zip_walk.

(** A type signature built only of struct, federated, sequence and tensor
    nodes. *)
Fixpoint walkable (t : tff_type) : bool :=
  match t with
  | TensorType _ _ => true
  | SequenceType _ => true
  | FederatedType member _ => walkable member
  | StructType fields => forallb (fun e => walkable e.2) fields
  | _ => false
  end.

(** The elements of a container against the fields of a struct type: as many,
    with the same names in the same order, each element accepted by [g] at the
    type of its field. *)
Section fields_match.
Variable g : py_value raw -> tff_type -> bool.

Fixpoint fields_match (fields : list (option string * tff_type))
    (elements : list (option string * py_value raw)) {struct fields} : bool :=
  match fields, elements with
  | [], [] => true
  | (name, t') :: fields', (name', v') :: elements' =>
      bool_decide (name' = name) && g v' t' && fields_match fields' elements'
  | _, _ => false
  end.
End fields_match.

(** A value matches a type signature: under a struct type it is a container
    with one element per field, carrying the names of the fields in their
    order, and each element matches the type of its field; a federated type
    is matched as its member; the data at a tensor or sequence leaf is
    opaque. *)
Fixpoint matches (value : py_value raw) (t : tff_type) {struct t} : bool :=
  match t with
  | TensorType _ _ => true
  | SequenceType _ => true
  | FederatedType member _ => matches value member
  | StructType fields =>
      match structure.from_container value with
      | Ok elements =>
          (fix each (fields : list (option string * tff_type))
               (elements : list (option string * py_value raw)) {struct fields} : bool :=
             match fields, elements with
             | [], [] => true
             | (name, t') :: fields', (name', v') :: elements' =>
                 bool_decide (name' = name) && matches v' t' && each fields' elements'
             | _, _ => false
             end) fields elements
      | Raise _ => false
      end
  | _ => false
  end.

(** The canonical ordered-named-field form of a value, at every depth:
    containers become [Struct]s, field names and order kept. *)
Fixpoint canonical (v : py_value raw) : py_value raw :=
  match v with
  | Struct elements => Struct (map (fun e => (e.1, canonical e.2)) elements)
  | PyList items => Struct (map (fun x => (None, canonical x)) items)
  | PyOrderedDict items => Struct (map (fun kv => (Some kv.1, canonical kv.2)) items)
  | _ => v
  end.

(** Structural equality: the same fields, with the same names in the same
    order, around the same data, whatever the class of the containers. *)
Definition structurally_equal (a b : py_value raw) : Prop :=
  canonical a = canonical b.

(** As [fields_match], whatever the names of the elements. *)
Section fields_conform.
Variable g : py_value raw -> tff_type -> bool.

Fixpoint fields_conform (fields : list (option string * tff_type))
    (elements : list (option string * py_value raw)) {struct fields} : bool :=
  match fields, elements with
  | [], [] => true
  | (_, t') :: fields', (_, v') :: elements' =>
      g v' t' && fields_conform fields' elements'
  | _, _ => false
  end.
End fields_conform.

(** A value has the shape of a type signature: as [matches], whatever the
    names its containers give their elements. *)
Fixpoint conforms (value : py_value raw) (t : tff_type) {struct t} : bool :=
  match t with
  | TensorType _ _ => true
  | SequenceType _ => true
  | FederatedType member _ => conforms value member
  | StructType fields =>
      match structure.from_container value with
      | Ok elements =>
          (fix each (fields : list (option string * tff_type))
               (elements : list (option string * py_value raw)) {struct fields} : bool :=
             match fields, elements with
             | [], [] => true
             | (_, t') :: fields', (_, v') :: elements' =>
                 conforms v' t' && each fields' elements'
             | _, _ => false
             end) fields elements
      | Raise _ => false
      end
  | _ => false
  end.

(** The elements of a container with their names erased, each rewritten by
    [g] at the type of its field. *)
Section fields_unnamed.
Variable g : py_value raw -> tff_type -> py_value raw.

Fixpoint fields_unnamed (fields : list (option string * tff_type))
    (elements : list (option string * py_value raw)) {struct fields}
  : list (option string * py_value raw) :=
  match fields, elements with
  | (_, t') :: fields', (_, v') :: elements' =>
      (None, g v' t') :: fields_unnamed fields' elements'
  | _, _ => []
  end.
End fields_unnamed.

(** The value under the type signature with the names of its containers
    erased: what is left is the data, position by position. *)
Fixpoint unnamed (value : py_value raw) (t : tff_type) {struct t} : py_value raw :=
  match t with
  | FederatedType member _ => unnamed value member
  | StructType fields =>
      match structure.from_container value with
      | Ok elements =>
          Struct
            ((fix each (fields : list (option string * tff_type))
                  (elements : list (option string * py_value raw)) {struct fields}
                : list (option string * py_value raw) :=
                match fields, elements with
                | (_, t') :: fields', (_, v') :: elements' =>
                    (None, unnamed v' t') :: each fields' elements'
                | _, _ => []
                end) fields elements)
      | Raise _ => value
      end
  | _ => value
  end.

(** What one round trip gives at a value: the references, then the value
    they materialize to, structurally equal to the original and the original
    itself when that is in canonical form. *)
Definition round_trips (value : py_value raw) (t : tff_type) : Prop :=
  exists refs value',
    _create_structure_of_value_references value t = Ok refs
    /\ _materialize_structure_of_value_references refs t = Ok value'
    /\ structurally_equal value' value
    /\ (canonical value = value -> value' = value).



End vocabulary.

(** ** Vocabulary of the result-type gate *)

(** The type signature contains a client-placed value: one of the types
    nested in it, itself included, is federated at [CLIENTS]. *)
Fixpoint contains_client_placed (t : tff_type) : bool :=
  match t with
  | FederatedType member placement =>
      bool_decide (placement = CLIENTS) || contains_client_placed member
  | StructType fields => existsb (fun e => contains_client_placed e.2) fields
  | SequenceType element => contains_client_placed element
  | FunctionType parameter result =>
      from_option contains_client_placed false parameter
      || contains_client_placed result
  | _ => false
  end.

(** The type signature contains only structs, server-placed values and
    tensors. *)
Inductive only_server_data : tff_type -> Prop :=
| only_tensor dtype shape : only_server_data (TensorType dtype shape)
| only_struct fields :
    Forall (fun e => only_server_data e.2) fields ->
    only_server_data (StructType fields)
| only_server_placed member :
    only_server_data member -> only_server_data (FederatedType member SERVER).

(** The errors Wrap raises are its own: never a [ValueError]. *)
Definition walker_error (e : exn) : Prop :=
  match e with
  | TypeError _ | NotImplementedError _ => True
  | _ => False
  end.

(** ** Vocabulary of the data source *)

(** Every dataset of the collection has the element type specification of
    the first. *)
Definition homogeneous (datasets : list tf_data.Dataset) : Prop :=
  forall first d,
    datasets !! 0%nat = Some first -> d ∈ datasets ->
    tf_data.element_spec d = tf_data.element_spec first.

(** A run of [select] calls on one iterator, whatever each returns or
    raises; the state of the process after the last. *)
Fixpoint select_calls {G} `{!Random G} (self : nat) (requests : list (option Z))
    (p : process G) : process G :=
  match requests with
  | [] => p
  | number_of_clients :: requests' =>
      select_calls self requests'
        (DatasetDataSourceIterator.select self number_of_clients p).2
  end.

(** ** Vocabulary of the further properties *)

Section further_vocabulary.
Context {raw : Type}.

(** A test [g] on the zipped pairs of elements and fields, as far as the
    shorter of the two reaches. *)
Section fields_all.
Variable g : py_value raw -> tff_type -> bool.

Fixpoint fields_all (fields : list (option string * tff_type))
    (elements : list (option string * py_value raw)) {struct fields} : bool :=
  match fields, elements with
  | (_, t') :: fields', (_, v') :: elements' =>
      g v' t' && fields_all fields' elements'
  | _, _ => true
  end.
End fields_all.

(** No reference found at a tensor or sequence leaf of the type signature
    refers to another reference. *)
Fixpoint references_unnested (value : py_value raw) (t : tff_type) {struct t} : bool :=
  match t with
  | TensorType _ _ | SequenceType _ =>
      match value with
      | NumpyValueRef (NumpyValueRef _ _) _ => false
      | _ => true
      end
  | FederatedType member _ => references_unnested value member
  | StructType fields =>
      match structure.from_container value with
      | Ok elements =>
          (fix each (fields : list (option string * tff_type))
               (elements : list (option string * py_value raw)) {struct fields} : bool :=
             match fields, elements with
             | (_, t') :: fields', (_, v') :: elements' =>
                 references_unnested v' t' && each fields' elements'
             | _, _ => true
             end) fields elements
      | Raise _ => true
      end
  | _ => true
  end.
(** The elements against a prefix of the fields: each element under the name
    of its field and accepted by [g] at the type of that field. *)
Section fields_prefix.
Variable g : py_value raw -> tff_type -> bool.

Fixpoint fields_prefix (fields : list (option string * tff_type))
    (elements : list (option string * py_value raw)) {struct fields} : bool :=
  match fields, elements with
  | _, [] => true
  | (name, t') :: fields', (name', r) :: elements' =>
      bool_decide (name' = name) && g r t' && fields_prefix fields' elements'
  | [], _ :: _ => false
  end.
End fields_prefix.

(** A structure of [NumpyValueReference]s for a type signature: a reference
    carrying the type of the leaf at each tensor or sequence leaf, placements
    taken off, and at each struct node a [Struct] whose elements stand under
    the names of the first fields of the node, in order. *)
Fixpoint structure_of_references (refs : py_value raw) (t : tff_type) {struct t} : bool :=
  match t with
  | TensorType _ _ | SequenceType _ =>
      match refs with
      | NumpyValueRef _ t' => type_eqb t' t
      | _ => false
      end
  | FederatedType member _ => structure_of_references refs member
  | StructType fields =>
      match refs with
      | Struct elements =>
          (fix each (fields : list (option string * tff_type))
               (elements : list (option string * py_value raw)) {struct fields} : bool :=
             match fields, elements with
             | _, [] => true
             | (name, t') :: fields', (name', r) :: elements' =>
                 bool_decide (name' = name) && structure_of_references r t'
                 && each fields' elements'
             | [], _ :: _ => false
             end) fields elements
      | _ => false
      end
  | _ => false
  end.
End further_vocabulary.

(** The type signature with its placements taken off, down to the tensor and
    sequence leaves. *)
Fixpoint without_placement (t : tff_type) : tff_type :=
  match t with
  | FederatedType member _ => without_placement member
  | StructType fields =>
      StructType (map (fun e => (e.1, without_placement e.2)) fields)
  | _ => t
  end.

(** The generator after [k] variates have been drawn from it. *)
Definition advance {G} `{!Random G} (k : nat) (g : G) : G :=
  Nat.iter k (fun g => (genrand_res53 g).2) g.

(** ** Vocabulary of the equality of references *)

Section equality_vocabulary.
Context {raw : Type}.
Variable py_eq : py_value raw -> py_value raw -> py_result (py_value raw).
Variable truth : py_value raw -> py_result bool.



End equality_vocabulary.

(** A rendering of type signatures by their kind, for the examples. *)
Definition kind_repr : TypeRepr := fun t =>
  match t with
  | TensorType dtype _ => dtype
  | StructType _ => "struct"
  | SequenceType _ => "sequence"
  | FederatedType _ CLIENTS => "federated@CLIENTS"
  | FederatedType _ SERVER => "federated@SERVER"
  | FunctionType _ _ => "function"
  | AbstractType label => label
  | PlacementType => "placement"
  end.

(** ** Concrete collaborators and inputs for the examples *)

Module examples.
(** Numpy data are integers here. *)
Definition int32 : tff_type := TensorType "int32" [].

(** [<a=int32, <x=float32*>@SERVER>] and a value of that shape whose inner
    struct is given as an ordered dictionary. *)
Definition nested_type : tff_type :=
  StructType
    [(Some "a", int32);
     (None, FederatedType
              (StructType [(Some "x", SequenceType (TensorType "float32" []))]) SERVER)].

Definition nested_value : py_value Z :=
  Struct [(Some "a", Raw 1%Z); (None, PyOrderedDict [("x", Raw 2%Z)])].

(** The same value made of [Struct]s only. *)
Definition nested_struct_value : py_value Z :=
  Struct [(Some "a", Raw 1%Z); (None, Struct [(Some "x", Raw 2%Z)])].

Definition two_fields : list (option string * tff_type) :=
  [(Some "a", int32); (Some "b", int32)].





Definition three_items : py_value Z := PyList [Raw 1%Z; Raw 2%Z; Raw 3%Z].

(** An engine that counts the calls it receives, ingests a value as it is
    and answers every invocation with [5]. *)
Definition counting_engine : context_base.Context Z nat := {|
  context_base.ingest := fun value _ n => (Returned value, S n);
  context_base.invoke := fun _ _ n => (Returned (Raw 5%Z), S n)
|}.

(** An engine whose [ingest] fails. *)
Definition refusing_engine : context_base.Context Z nat := {|
  context_base.ingest := fun _ _ n => (Failed "cannot ingest", S n);
  context_base.invoke := fun _ _ n => (Returned (Raw 5%Z), S n)
|}.

Definition keep_container : ContainerConversion Z := fun value _ => Returned value.

Definition fresh_world : world Z nat := {| engine_state := 0%nat; calls := [] |}.

(** [( -> int32@SERVER)], [(int32 -> int32@SERVER)] and
    [( -> {int32}@CLIENTS)]. *)
Definition server_comp : computation_base.Computation := {|
  computation_base.name := "server_comp";
  computation_base.type_signature := {|
    computation_base.parameter := None;
    computation_base.result := FederatedType int32 SERVER |}
|}.

Definition unary_comp : computation_base.Computation := {|
  computation_base.name := "unary_comp";
  computation_base.type_signature := {|
    computation_base.parameter := Some int32;
    computation_base.result := FederatedType int32 SERVER |}
|}.

Definition clients_comp : computation_base.Computation := {|
  computation_base.name := "clients_comp";
  computation_base.type_signature := {|
    computation_base.parameter := None;
    computation_base.result := StructType [(None, FederatedType int32 CLIENTS)] |}
|}.

(** A linear congruential generator; its top 53 bits are the variate. *)
Definition lcg : Random Z := fun g =>
  let g' := ((6364136223846793005 * g + 1442695040888963407) mod 2 ^ 64)%Z in
  ((g' / 2 ^ 11)%Z, g').

Definition dataset (n : nat) : tf_data.Dataset :=
  {| tf_data.element_spec := int32; tf_data.handle := n |}.

Definition odd_dataset : tf_data.Dataset :=
  {| tf_data.element_spec := TensorType "string" []; tf_data.handle := 9 |}.

Definition clients_type : tff_type := FederatedType (SequenceType int32) CLIENTS.

(** A process holding a list of three datasets and an iterator over it. *)
Definition three_clients : process Z := {|
  heap := [ListObject [dataset 0; dataset 1; dataset 2]; IteratorObject 0 clients_type];
  random_state := 42%Z
|}.

(** A process holding a list of one dataset. *)
Definition one_client : process Z := {|
  heap := [ListObject [dataset 0]];
  random_state := 42%Z
|}.

(** A process holding a list of two datasets of different specifications. *)
Definition mixed_clients : process Z := {|
  heap := [ListObject [dataset 0; odd_dataset]];
  random_state := 42%Z
|}.
(** Data of an array runtime: a number, not-a-number, or a handle to an
    iterable kept in the state; a Python list of numbers stands for an array,
    and Python's [True] and [False] are the numbers 1 and 0. *)
Inductive np : Type :=
| number (z : Z)
| nan
| iterable (h : nat).

Definition as_bool (b : bool) : py_value np := Raw (number (if b then 1 else 0)).

Definition number_eq (x y : py_value np) : py_value np :=
  match x, y with
  | Raw (number a), Raw (number b) => as_bool (a =? b)%Z
  | _, _ => as_bool false
  end.

(** [==]: on two arrays the array of the results, element by element;
    otherwise a bool, false as soon as not-a-number is involved. *)
Definition np_eq (x y : py_value np) : py_result (py_value np) :=
  match x, y with
  | PyList xs, PyList ys => Ok (PyList (zip_with number_eq xs ys))
  | _, _ => Ok (number_eq x y)
  end.

Definition ambiguous_message : string :=
  "The truth value of an array with more than one element is ambiguous.".

(** [bool(...)]: an array of more than one element has no truth value. *)
Definition np_truth (r : py_value np) : py_result bool :=
  match r with
  | Raw (number z) => Ok (negb (z =? 0)%Z)
  | PyList [] => Ok false
  | PyList [Raw (number z)] => Ok (negb (z =? 0)%Z)
  | PyList (_ :: _ :: _) => Raise (ValueError ambiguous_message)
  | _ => Ok true
  end.

(** The iterables of the state: what each gives, element by element, every
    element with its identity. [np_list] reads an iterable again and again;
    [np_list_once] leaves it exhausted. *)
Definition iterables : Type := list (list (nat * py_value np)).

Definition np_list (v : py_value np) : M iterables (list (nat * py_value np)) :=
  fun s =>
    match v with
    | Raw (iterable h) =>
        match s !! h with
        | Some items => (Ok items, s)
        | None => (Raise (TypeError "object is not iterable"), s)
        end
    | _ => (Raise (TypeError "object is not iterable"), s)
    end.

Definition np_list_once (v : py_value np) : M iterables (list (nat * py_value np)) :=
  fun s =>
    match v with
    | Raw (iterable h) =>
        match s !! h with
        | Some items => (Ok items, <[h := []]> s)
        | None => (Raise (TypeError "object is not iterable"), s)
        end
    | _ => (Raise (TypeError "object is not iterable"), s)
    end.

Definition float_sequence : tff_type := SequenceType (TensorType "float32" []).

(** Two iterables that give the very same not-a-number object, and two that
    give two different arrays of the same numbers. *)
Definition shared_nan : iterables :=
  [[(7%nat, Raw nan)]; [(7%nat, Raw nan)]].

Definition two_arrays : iterables :=
  [[(7%nat, PyList [Raw (number 1); Raw (number 2)])];
   [(8%nat, PyList [Raw (number 1); Raw (number 2)])]].

(** A reference to the first iterable, a reference to a number and a
    reference to an array. *)
Definition sequence_reference : NumpyValueReference.instance := {|
  NumpyValueReference.id := 1;
  NumpyValueReference._value := Raw (iterable 0);
  NumpyValueReference._type_signature := float_sequence
|}.

Definition number_reference : NumpyValueReference.instance := {|
  NumpyValueReference.id := 1;
  NumpyValueReference._value := Raw (number 7);
  NumpyValueReference._type_signature := int32
|}.

Definition array_reference : NumpyValueReference.instance := {|
  NumpyValueReference.id := 1;
  NumpyValueReference._value := PyList [Raw (number 1); Raw (number 2)];
  NumpyValueReference._type_signature := TensorType "int32" [2%Z]
|}.

Definition float_type : tff_type := TensorType "float32" [].

(** A structure with a reference at one leaf and plain data at the other,
    and a reference to a reference. *)
Definition half_wrapped : py_value Z :=
  Struct [(Some "a", NumpyValueRef (Raw 1%Z) int32); (Some "b", Raw 2%Z)].

Definition doubly_wrapped : py_value Z :=
  NumpyValueRef (NumpyValueRef (Raw 1%Z) int32) int32.

(** [one_client] after an iterator was constructed on its list, and after the
    caller emptied that list. *)
Definition one_client_iterated : process Z := {|
  heap := [ListObject [dataset 0]; IteratorObject 0 clients_type];
  random_state := 42%Z
|}.

Definition one_client_emptied : process Z := {|
  heap := [ListObject []; IteratorObject 0 clients_type];
  random_state := 42%Z
|}.
End examples.

(** * Properties *)

(** ** Equality of type signatures *)

Lemma type_eqb_eq (a b : tff_type) : type_eqb a b = true <-> a = b.
Proof.
  revert b. induction a using tff_type_nested_ind; intros b; destruct b;
    simpl; try (split; [discriminate | congruence]).
  - rewrite andb_true_iff, !bool_decide_eq_true. split; [intros []|intros [=]]; by subst.
  - match goal with |- ?f es elements = true <-> _ =>
      assert (Hf : f es elements = true <-> es = elements) end.
    { revert elements. induction H as [|[n t] r Ht Hr IH]; intros [|[n' t'] r']; simpl;
        try (split; [discriminate | congruence]); [done|].
      rewrite !andb_true_iff, bool_decide_eq_true, Ht, IH.
      split; [intros [[] ]|intros [=]]; by subst. }
    rewrite Hf. split; [by intros ->|by intros [=]].
  - rewrite IHa. split; [by intros ->|by intros [=]].
  - rewrite andb_true_iff, bool_decide_eq_true, IHa.
    split; [intros []|intros [=]]; by subst.
  - rewrite andb_true_iff, IHa.
    destruct p as [t|], parameter as [t'|]; simpl.
    + rewrite (H t'). split; [intros []|intros [=]]; by subst.
    + split; [intros []|intros [=]]; discriminate.
    + split; [intros []|intros [=]]; discriminate.
    + split; [intros []|intros [=]]; by subst.
  - rewrite bool_decide_eq_true. split; [by intros ->|by intros [=]].
  - done.
Qed.

Lemma type_eqb_refl (t : tff_type) : type_eqb t t = true.
Proof. by apply type_eqb_eq. Qed.

#[export] Instance tff_type_eq_dec : EqDecision tff_type.
Proof.
  intros a b. destruct (type_eqb a b) eqn:E.
  - left. by apply type_eqb_eq.
  - right. intros Heq. apply type_eqb_eq in Heq. congruence.
Defined.

#[export] Instance Dataset_eq_dec : EqDecision tf_data.Dataset.
Proof. solve_decision. Defined.

(** ** The walkers *)

Section walker_lemmas.
Context {raw : Type} `{!TypeRepr}.
Implicit Types (value v : py_value raw) (t : tff_type).

Lemma create_struct value fields :
  _create_structure_of_value_references value (StructType fields) =
  (es ← structure.from_container value;
   elements ← zip_walk _create_structure_of_value_references fields (structure.iter es);
   Ok (Struct elements)).
Proof. reflexivity. Qed.

Lemma materialize_struct value fields :
  _materialize_structure_of_value_references value (StructType fields) =
  (es ← structure.from_container value;
   elements ← zip_walk _materialize_structure_of_value_references fields (structure.iter es);
   Ok (Struct elements)).
Proof. reflexivity. Qed.
End walker_lemmas.


Section zip_walk_lemmas.
Context {raw : Type}.
Variable f : py_value raw -> tff_type -> py_result (py_value raw).
Implicit Types (fields : list (option string * tff_type)) (values : list (py_value raw)).

Lemma zip_walk_take fields values :
  zip_walk f fields values =
  zip_walk f (take (min (length values) (length fields)) fields)
             (take (min (length values) (length fields)) values).
Proof.
  revert values. induction fields as [|[name t] fields IH]; intros [|v values]; simpl;
    try reflexivity.
  destruct (f v t); simpl; [|reflexivity]. by rewrite <- IH.
Qed.

Lemma zip_walk_shape fields values elements :
  zip_walk f fields values = Ok elements ->
  length elements = min (length values) (length fields)
  /\ elements.*1 = (take (min (length values) (length fields)) fields).*1.
Proof.
  revert values elements.
  induction fields as [|[name t] fields IH]; intros [|v values] elements; simpl;
    try (intros [= <-]; done).
  destruct (f v t) as [w|]; simpl; [|discriminate].
  destruct (zip_walk f fields values) as [rest|] eqn:E; simpl; [|discriminate].
  intros [= <-]. destruct (IH _ _ E) as [Hlen Hnames]. simpl.
  split; [by rewrite Hlen | by f_equal].
Qed.

Lemma zip_walk_succeeds fields values :
  (forall i v e, values !! i = Some v -> fields !! i = Some e -> is_Ok (f v e.2)) ->
  is_Ok (zip_walk f fields values).
Proof.
  revert values. induction fields as [|[name t] fields IH]; intros [|v values] Hall; simpl;
    try (by eexists).
  destruct (Hall 0%nat v (name, t) eq_refl eq_refl) as [w Hw]. simpl in Hw.
  rewrite Hw. simpl.
  destruct (IH values) as [rest ->]; [|by eexists].
  intros i v' e Hv He. by apply (Hall (S i)).
Qed.
End zip_walk_lemmas.

Section walker_theorems.
Context {raw : Type} `{!TypeRepr}.
Implicit Types (value v : py_value raw) (t : tff_type).

(** C4. On a type signature whose kind is none of struct, federated, sequence
    or tensor, Wrap raises the unimplemented-type error naming the type, while
    Unwrap on the same type returns the input value unchanged. *)
Theorem other_kind_wrap_raises_unwrap_passes value t :
  is_struct t = false -> is_federated t = false ->
  is_sequence t = false -> is_tensor t = false ->
  _create_structure_of_value_references value t =
    Raise (NotImplementedError ("Unexpected type found: " +:+ type_repr t +:+ "."))
  /\ _materialize_structure_of_value_references value t = Ok value.
Proof. destruct t; simpl; intros; by try discriminate. Qed.

(** C9. For a struct type signature, Wrap and Unwrap walk the elements of the
    value and the fields of the type in lockstep and stop at the shorter of
    the two: each gives what it gives on the zipped prefixes, a result struct
    has exactly as many elements as the shorter has and carries the names of
    that prefix of the fields, and no error comes from the surplus, so the
    call succeeds as soon as the zipped pairs do. *)
Theorem struct_walk_stops_at_shorter value fields es :
  structure.from_container value = Ok es ->
  let m := min (length es) (length fields) in
  _create_structure_of_value_references value (StructType fields) =
    _create_structure_of_value_references (Struct (take m es)) (StructType (take m fields))
  /\ _materialize_structure_of_value_references value (StructType fields) =
    _materialize_structure_of_value_references (Struct (take m es)) (StructType (take m fields))
  /\ (forall r, _create_structure_of_value_references value (StructType fields) = Ok r ->
        exists rs, r = Struct rs /\ length rs = m /\ rs.*1 = (take m fields).*1)
  /\ (forall r, _materialize_structure_of_value_references value (StructType fields) = Ok r ->
        exists rs, r = Struct rs /\ length rs = m /\ rs.*1 = (take m fields).*1)
  /\ ((forall i e fld, es !! i = Some e -> fields !! i = Some fld ->
         is_Ok (_create_structure_of_value_references e.2 fld.2)) ->
      is_Ok (_create_structure_of_value_references value (StructType fields)))
  /\ ((forall i e fld, es !! i = Some e -> fields !! i = Some fld ->
         is_Ok (_materialize_structure_of_value_references e.2 fld.2)) ->
      is_Ok (_materialize_structure_of_value_references value (StructType fields))).
Proof.
  intros Hes m.
  assert (Hiter : structure.iter (take m es) = take m (structure.iter es)).
  { unfold structure.iter. by rewrite <- fmap_take. }
  assert (Hm : m = min (length (structure.iter es)) (length fields)).
  { unfold structure.iter. by rewrite length_map. }
  rewrite !create_struct, !materialize_struct, Hes. simpl.
  rewrite Hiter, Hm, <- !zip_walk_take.
  repeat split.
  - intros r. destruct (zip_walk _ fields _) as [rs|] eqn:E; simpl; [|discriminate].
    intros [= <-]. exists rs. by destruct (zip_walk_shape _ _ _ _ E).
  - intros r. destruct (zip_walk _ fields _) as [rs|] eqn:E; simpl; [|discriminate].
    intros [= <-]. exists rs. by destruct (zip_walk_shape _ _ _ _ E).
  - intros Hall.
    destruct (zip_walk_succeeds _create_structure_of_value_references fields
                (structure.iter es)) as [rs ->]; [|by eexists].
    intros i v e Hv He. unfold structure.iter in Hv.
    rewrite list_lookup_fmap in Hv. destruct (es !! i) as [e'|] eqn:E; [|discriminate].
    injection Hv as <-. by apply (Hall i).
  - intros Hall.
    destruct (zip_walk_succeeds _materialize_structure_of_value_references fields
                (structure.iter es)) as [rs ->]; [|by eexists].
    intros i v e Hv He. unfold structure.iter in Hv.
    rewrite list_lookup_fmap in Hv. destruct (es !! i) as [e'|] eqn:E; [|discriminate].
    injection Hv as <-. by apply (Hall i).
Qed.
End walker_theorems.

Section roundtrip.
Context {raw : Type} `{!TypeRepr}.
Implicit Types (value v : py_value raw) (t : tff_type).

Lemma matches_struct value fields :
  matches value (StructType fields) =
  match structure.from_container value with
  | Ok elements => fields_match matches fields elements
  | Raise _ => false
  end.
Proof. reflexivity. Qed.

Lemma canonical_from_container value es :
  structure.from_container value = Ok es ->
  canonical value = Struct (map (fun e => (e.1, canonical e.2)) es).
Proof.
  destruct value; simpl; intros [= <-]; try reflexivity.
  - f_equal. by rewrite map_map.
  - f_equal. by rewrite map_map.
Qed.

Lemma fields_round_trip fields :
  Forall (fun e => forall value, walkable e.2 = true -> matches value e.2 = true ->
                   round_trips value e.2) fields ->
  forall es,
    forallb (fun e => walkable e.2) fields = true ->
    fields_match matches fields es = true ->
    exists refs es' : list (option string * py_value raw),
      zip_walk _create_structure_of_value_references fields (structure.iter es) = Ok refs
      /\ zip_walk _materialize_structure_of_value_references fields (structure.iter refs)
         = Ok es'
      /\ map (fun e => (e.1, canonical e.2)) es' = map (fun e => (e.1, canonical e.2)) es
      /\ (map (fun e => (e.1, canonical e.2)) es = es -> es' = es).
Proof.
  induction 1 as [|[name t] fields Ht _ IH]; intros [|[name' v] es]; simpl;
    try discriminate.
  - intros _ _. by exists [], [].
  - rewrite !andb_true_iff, bool_decide_eq_true.
    intros [Hw Hws] [[-> Hm] Hms].
    destruct (Ht v Hw Hm) as (r & v' & Hr & Hv' & Heq & Hid). simpl in *.
    destruct (IH es Hws Hms) as (refs & es' & Hrefs & Hes' & Hcan & Hsame).
    exists ((name, r) :: refs), ((name, v') :: es').
    rewrite Hr. simpl. rewrite Hrefs. simpl. rewrite Hv'. simpl. rewrite Hes'. simpl.
    repeat split.
    + unfold structurally_equal in Heq. by rewrite Heq, Hcan.
    + intros [= Hv Hes]. by rewrite (Hid Hv), (Hsame Hes).
Qed.

Lemma conforms_struct value fields :
  conforms value (StructType fields) =
  match structure.from_container value with
  | Ok elements => fields_conform conforms fields elements
  | Raise _ => false
  end.
Proof. reflexivity. Qed.

Lemma unnamed_struct value fields :
  unnamed value (StructType fields) =
  match structure.from_container value with
  | Ok elements => Struct (fields_unnamed unnamed fields elements)
  | Raise _ => value
  end.
Proof. reflexivity. Qed.

Lemma fields_take_names fields :
  Forall (fun e => forall value, walkable e.2 = true -> conforms value e.2 = true ->
            exists refs value',
              _create_structure_of_value_references value e.2 = Ok refs
              /\ _materialize_structure_of_value_references refs e.2 = Ok value'
              /\ matches value' e.2 = true
              /\ unnamed value' e.2 = unnamed value e.2) fields ->
  forall es,
    forallb (fun e => walkable e.2) fields = true ->
    fields_conform conforms fields es = true ->
    exists refs es' : list (option string * py_value raw),
      zip_walk _create_structure_of_value_references fields (structure.iter es) = Ok refs
      /\ zip_walk _materialize_structure_of_value_references fields (structure.iter refs)
         = Ok es'
      /\ fields_match matches fields es' = true
      /\ fields_unnamed unnamed fields es' = fields_unnamed unnamed fields es.
Proof.
  induction 1 as [|[name t] fields Ht _ IH]; intros [|[name' v] es]; simpl;
    try discriminate.
  - intros _ _. by exists [], [].
  - rewrite !andb_true_iff. intros [Hw Hws] [Hc Hcs].
    destruct (Ht v Hw Hc) as (r & v' & Hr & Hv' & Hm & Hu). simpl in *.
    destruct (IH es Hws Hcs) as (refs & es' & Hrefs & Hes' & Hms & Hus).
    exists ((name, r) :: refs), ((name, v') :: es').
    rewrite Hr. simpl. rewrite Hrefs. simpl. rewrite Hv'. simpl. rewrite Hes'. simpl.
    rewrite Hm, Hms, Hu, Hus. by rewrite bool_decide_true.
Qed.

(** X15. Whatever names the containers of a value give their elements, the
    round trip returns the data of the value, position by position, under the
    field names of the type signature. *)
Lemma round_trip_takes_names_from_type t :
  forall value, walkable t = true -> conforms value t = true ->
  exists refs value',
    _create_structure_of_value_references value t = Ok refs
    /\ _materialize_structure_of_value_references refs t = Ok value'
    /\ matches value' t = true
    /\ unnamed value' t = unnamed value t.
Proof.
  induction t as [d s|fields IH|t _|t p IH| | |] using tff_type_nested_ind;
    intros value Hw Hc; try discriminate.
  - by exists (NumpyValueRef value (TensorType d s)), value.
  - rewrite conforms_struct in Hc.
    destruct (structure.from_container value) as [es|] eqn:Hes; [|discriminate].
    simpl in Hw.
    destruct (fields_take_names fields IH es Hw Hc) as (refs & es' & Hrefs & Hes' & Hm & Hu).
    exists (Struct refs), (Struct es').
    split; [rewrite create_struct, Hes; simpl; by rewrite Hrefs|].
    split; [rewrite materialize_struct; simpl; by rewrite Hes'|].
    split; [by rewrite matches_struct|].
    rewrite !unnamed_struct, Hes. simpl. by rewrite Hu.
  - by exists (NumpyValueRef value (SequenceType t)), value.
  - by apply IH.
Qed.

Lemma matching_round_trips t :
  forall value, walkable t = true -> matches value t = true -> round_trips value t.
Proof.
  induction t as [d s|fields IH|t _|t p IH| | |] using tff_type_nested_ind;
    intros value Hw Hm; try discriminate.
  - exists (NumpyValueRef value (TensorType d s)), value. by repeat split.
  - rewrite matches_struct in Hm.
    destruct (structure.from_container value) as [es|] eqn:Hes; [|discriminate].
    simpl in Hw.
    destruct (fields_round_trip fields IH es Hw Hm)
      as (refs & es' & Hrefs & Hes' & Hcan & Hsame).
    exists (Struct refs), (Struct es').
    rewrite create_struct, materialize_struct, Hes. simpl.
    rewrite Hrefs. simpl. rewrite Hes'. simpl.
    repeat split.
    + unfold structurally_equal.
      rewrite (canonical_from_container value es Hes). simpl. by rewrite Hcan.
    + intros Hv. rewrite (canonical_from_container value es Hes) in Hv.
      rewrite <- Hv in Hes. simpl in Hes. injection Hes as Hes.
      rewrite (Hsame Hes). by rewrite <- Hv, Hes.
  - exists (NumpyValueRef value (SequenceType t)), value. by repeat split.
  - by apply IH.
Qed.




End roundtrip.

(** ** The federated context *)

Section gate_lemmas.
Import federated_context.

Lemma client_placed_fails_gate t :
  contains_client_placed t = true -> contains_only_server_placed_data t = false.
Proof.
  unfold contains_only_server_placed_data.
  induction t as [d s|fields IH|t IH|t p IH|p r IHp IHr| |] using tff_type_nested_ind;
    simpl; try discriminate.
  - intros Hex. induction IH as [|[name t] fields Ht _ IHf]; simpl in *; [discriminate|].
    apply orb_true_iff in Hex as [Hex|Hex].
    + by rewrite (Ht Hex).
    + rewrite (IHf Hex). by rewrite andb_false_r.
  - done.
  - destruct p; simpl; [done|]. intros Ht. by rewrite (IH Ht).
  - done.
Qed.

Lemma only_server_data_passes_gate t :
  only_server_data t -> contains_only_server_placed_data t = true.
Proof.
  unfold contains_only_server_placed_data.
  induction t as [d s|fields IH|t IH|t p IH|p r IHp IHr| |] using tff_type_nested_ind;
    simpl; inversion 1; subst; try done.
  - match goal with Hs : only_server_data (StructType _) |- _ => clear Hs end.
    match goal with Hall : Forall _ fields |- _ => revert Hall end.
    induction IH as [|[name t] fields Ht _ IHf]; simpl; [done|].
    intros Hall. apply Forall_cons in Hall as [Hhd Htl]. simpl in *.
    by rewrite (Ht Hhd), (IHf Htl).
  - by rewrite IH.
Qed.
End gate_lemmas.

Section walker_errors.
Context {raw : Type} `{!TypeRepr}.

Lemma create_raises_walker_error t :
  forall (value : py_value raw) e,
    _create_structure_of_value_references value t = Raise e -> walker_error e.
Proof.
  induction t as [d s|fields IH|t IH|t p IH|p r IHp IHr| |] using tff_type_nested_ind;
    intros value e; simpl; try by intros [= <-].
  - destruct (structure.from_container value) as [es|e'] eqn:Hes; simpl.
    + change (structure.iter_elements fields) with fields.
      generalize (structure.iter es). clear Hes. intros values.
      match goal with |- ?loop fields values ≫= _ = _ -> _ =>
        assert (Hloop : forall e0, loop fields values = Raise e0 -> walker_error e0) end.
      { revert values. induction IH as [|[name t] fields Ht _ IHf]; intros [|v values] e0;
          simpl; try discriminate.
        destruct (_create_structure_of_value_references v t) as [w|e1] eqn:E; simpl.
        - match goal with |- ?l ≫= _ = _ -> _ => destruct l as [rest|e2] eqn:E2 end;
            simpl; [discriminate|]. intros [= <-]. by apply (IHf values).
        - intros [= <-]. by apply (Ht v). }
      match goal with |- ?l ≫= _ = _ -> _ => destruct l as [rest|e2] eqn:E2 end;
        simpl; [discriminate|]. intros [= <-]. by apply Hloop.
    + destruct value; simpl in Hes; try discriminate; injection Hes as <-;
        by intros [= <-].
  - apply IH.
Qed.
End walker_errors.

Section context_theorems.
Context {raw E : Type} `{!TypeRepr} `{!ContainerConversion raw}.
Import federated_context.
Implicit Types (self : NativeFederatedContext.t (raw := raw) (E := E))
  (comp : computation_base.Computation) (arg : py_value raw) (w : world raw E).

Lemma invoke_rejected self comp arg w :
  contains_only_server_placed_data
    (computation_base.result (computation_base.type_signature comp)) = false ->
  NativeFederatedContext.invoke self comp arg w =
  (Raise (ValueError (NativeFederatedContext.result_type_message
                        (computation_base.result (computation_base.type_signature comp)))),
   w).
Proof. intros Hgate. unfold NativeFederatedContext.invoke. by rewrite Hgate. Qed.

Lemma from_collaborator_not_ValueError {A} (r : collaborator_result A) msg :
  from_collaborator r <> Raise (ValueError msg).
Proof. by destruct r. Qed.

Lemma bind_no_ValueError {St A B} (m : M St A) (f : A -> M St B) msg :
  (forall s, (m s).1 <> Raise (ValueError msg)) ->
  (forall a s, (f a s).1 <> Raise (ValueError msg)) ->
  forall s, ((m ≫= f) s).1 <> Raise (ValueError msg).
Proof.
  intros Hm Hf s. unfold mbind, M_bind. specialize (Hm s).
  destruct (m s) as [[a|e] s']; simpl in *; [apply Hf|].
  intros [= ->]. by apply Hm.
Qed.

(** C2. When the declared result type of the computation contains a
    client-placed value, [invoke] raises the [ValueError] whose message names
    that type, and the engine is left as it was: no call reached it, neither
    [ingest] nor [invoke]. When the result type contains only structs,
    server-placed values and tensors, [invoke] raises no [ValueError]. *)
Theorem invoke_result_type_gate self comp arg w :
  let result_type := computation_base.result (computation_base.type_signature comp) in
  (contains_client_placed result_type = true ->
     NativeFederatedContext.invoke self comp arg w =
       (Raise (ValueError (NativeFederatedContext.result_type_message result_type)), w)
     /\ exists before after,
          NativeFederatedContext.result_type_message result_type =
          before +:+ type_repr result_type +:+ after)
  /\ (only_server_data result_type ->
      forall msg, (NativeFederatedContext.invoke self comp arg w).1 <> Raise (ValueError msg)).
Proof.
  intros result_type. split.
  - intros Hc. split.
    + apply invoke_rejected. by apply client_placed_fails_gate.
    + exists ("Expected the result type of the invoked computation to contain only "
              +:+ "structures, server-placed values, or tensors, found '"), "'.".
      reflexivity.
  - intros Hs msg. apply only_server_data_passes_gate in Hs.
    unfold NativeFederatedContext.invoke. fold result_type. rewrite Hs. simpl.
    apply bind_no_ValueError.
    + intros w0. destruct (computation_base.parameter _) as [p|]; [|done].
      unfold NativeFederatedContext.context_ingest.
      destruct (context_base.ingest _ arg p _) as [r s0]. apply from_collaborator_not_ValueError.
    + intros a. apply bind_no_ValueError.
      * intros w0. unfold NativeFederatedContext.context_invoke.
        destruct (context_base.invoke _ comp a _) as [r s0].
        apply from_collaborator_not_ValueError.
      * intros res. apply bind_no_ValueError.
        -- intros w0. unfold lift. simpl.
           destruct (_create_structure_of_value_references res result_type) as [refs|e]
             eqn:Hwrap; [done|].
           apply create_raises_walker_error in Hwrap. intros [= ->]. done.
        -- intros refs. apply bind_no_ValueError; [|done].
           intros w0. apply from_collaborator_not_ValueError.
Qed.
End context_theorems.

Section engine_calls.
Context {raw E : Type} `{!TypeRepr} `{!ContainerConversion raw}.
Import federated_context.
Implicit Types (self : NativeFederatedContext.t (raw := raw) (E := E))
  (comp : computation_base.Computation) (arg : py_value raw) (w : world raw E).

Lemma invoke_calls_exact self comp arg w :
  contains_only_server_placed_data
    (computation_base.result (computation_base.type_signature comp)) = true ->
  calls (NativeFederatedContext.invoke self comp arg w).2 =
  calls w ++
  match computation_base.parameter (computation_base.type_signature comp) with
  | None => [CallInvoke comp arg]
  | Some p =>
      match (context_base.ingest (NativeFederatedContext._context self) arg p
               (engine_state w)).1 with
      | Returned arg' => [CallIngest arg p; CallInvoke comp arg']
      | Failed _ => [CallIngest arg p]
      end
  end.
Proof.
  intros Hgate. unfold NativeFederatedContext.invoke. rewrite Hgate. simpl.
  unfold mbind, M_bind, lift, mret, M_ret.
  assert (Hrest : forall a w0,
    calls (let (r, w1) := NativeFederatedContext.context_invoke self comp a w0 in
           match r with
           | Ok res =>
               let (r', w2) :=
                 (_create_structure_of_value_references res
                    (computation_base.result (computation_base.type_signature comp)), w1) in
               match r' with
               | Ok refs =>
                   let (r'', w3) :=
                     (from_collaborator
                        (type_to_py_container refs
                           (computation_base.result (computation_base.type_signature comp))),
                      w2) in
                   match r'' with
                   | Ok out => (Ok out, w3)
                   | Raise e => (Raise e, w3)
                   end
               | Raise e => (Raise e, w2)
               end
           | Raise e => (Raise e, w1)
           end).2 = calls w0 ++ [CallInvoke comp a]).
  { intros a w0. unfold NativeFederatedContext.context_invoke.
    destruct (context_base.invoke _ comp a _) as [[res|what] s1]; simpl; [|done].
    destruct (_create_structure_of_value_references res _) as [refs|e]; simpl; [|done].
    by destruct (type_to_py_container refs _). }
  destruct (computation_base.parameter _) as [p|].
  - unfold NativeFederatedContext.context_ingest.
    destruct (context_base.ingest _ arg p _) as [[a|what] s0]; simpl; [|done].
    rewrite Hrest. simpl. by rewrite <- app_assoc.
  - apply Hrest.
Qed.

(** C7, as amended. A call to [invoke] whose result type passes the gate
    calls the engine's [ingest] exactly once when the computation declares a
    parameter type and not at all when it declares none; it then calls the
    engine's [invoke] exactly once, unless that [ingest] raised, in which case
    [invoke] is not called. *)
Theorem invoke_engine_calls self comp arg w :
  contains_only_server_placed_data
    (computation_base.result (computation_base.type_signature comp)) = true ->
  exists new,
    calls (NativeFederatedContext.invoke self comp arg w).2 = calls w ++ new
    /\ match computation_base.parameter (computation_base.type_signature comp) with
       | None =>
           count_calls is_ingest_call new = 0%nat
           /\ count_calls is_invoke_call new = 1%nat
       | Some p =>
           count_calls is_ingest_call new = 1%nat
           /\ match (context_base.ingest (NativeFederatedContext._context self) arg p
                       (engine_state w)).1 with
              | Returned _ => count_calls is_invoke_call new = 1%nat
              | Failed _ => count_calls is_invoke_call new = 0%nat
              end
       end.
Proof.
  intros Hgate. eexists. split; [by apply invoke_calls_exact|].
  destruct (computation_base.parameter _) as [p|]; [|done].
  by destruct (context_base.ingest _ arg p _).1.
Qed.
End engine_calls.

(** ** The data source and its iterator *)

Lemma type_ne_true (a b : tff_type) : type_ne a b = true <-> a <> b.
Proof.
  unfold type_ne. rewrite negb_true_iff, <- not_true_iff_false.
  by rewrite type_eqb_eq.
Qed.

Lemma type_ne_false (a b : tff_type) : type_ne a b = false <-> a = b.
Proof. unfold type_ne. by rewrite negb_false_iff, type_eqb_eq. Qed.

Section loop_lemmas.
Context `{!TypeRepr}.
Implicit Types (datasets remaining : list tf_data.Dataset) (first d : tf_data.Dataset).

Lemma loop_accepts datasets first remaining local :
  datasets !! 0%nat = Some first ->
  (forall d, d ∈ remaining -> tf_data.element_spec d = tf_data.element_spec first) ->
  for_dataset_in_datasets datasets remaining local =
  Ok (match remaining with [] => local | _ => Some (tf_data.element_spec first) end).
Proof.
  intros Hfirst. revert local.
  induction remaining as [|d remaining IH]; intros local Hall; simpl; [done|].
  rewrite Hfirst.
  assert (Hd : type_ne (tf_data.element_spec d) (tf_data.element_spec first) = false).
  { apply type_ne_false, Hall. by left. }
  rewrite Hd, IH.
  - by destruct remaining.
  - intros d' Hd'. apply Hall. by right.
Qed.

Lemma loop_rejects datasets first remaining local d :
  datasets !! 0%nat = Some first -> d ∈ remaining ->
  tf_data.element_spec d <> tf_data.element_spec first ->
  exists msg, for_dataset_in_datasets datasets remaining local = Raise (ValueError msg).
Proof.
  intros Hfirst Hin Hne. revert local.
  induction remaining as [|d' remaining IH]; intros local; simpl.
  - by apply elem_of_nil in Hin.
  - rewrite Hfirst.
    destruct (type_ne (tf_data.element_spec d') (tf_data.element_spec first)) eqn:E;
      [by eexists|].
    apply elem_of_cons in Hin as [->|Hin].
    + apply type_ne_false in E. done.
    + by apply IH.
Qed.

Lemma loop_accepted datasets first remaining local r :
  datasets !! 0%nat = Some first ->
  for_dataset_in_datasets datasets remaining local = Ok r ->
  forall d, d ∈ remaining -> tf_data.element_spec d = tf_data.element_spec first.
Proof.
  intros Hfirst Hok d Hin.
  destruct (decide (tf_data.element_spec d = tf_data.element_spec first)) as [|Hne]; [done|].
  destruct (loop_rejects datasets first remaining local d Hfirst Hin Hne) as [msg Hmsg].
  congruence.
Qed.
End loop_lemmas.

Section choices_lemmas.
Context {G : Type} `{!Random G}.

Lemma choices_draws {A} (population : list A) (k : nat) (p : process G) :
  (k = 0%nat \/ population <> []) ->
  exists items g,
    random.choices population k p = (Ok items, {| heap := heap p; random_state := g |})
    /\ length items = k
    /\ forall x, x ∈ items -> x ∈ population.
Proof.
  revert p. induction k as [|k IH]; intros p Hk.
  - exists [], (random_state p). simpl. destruct p.
    split; [reflexivity|]. split; [reflexivity|]. by intros x ?%elem_of_nil.
  - destruct Hk as [|Hne]; [discriminate|].
    simpl. unfold mbind at 1, M_bind at 1. unfold random.random53.
    destruct (genrand_res53 (random_state p)) as [m g] eqn:Hm.
    set (n := Z.of_nat (length population)).
    assert (Hn : (0 < n)%Z).
    { subst n. destruct population; [done|]. simpl. lia. }
    assert (Hidx : (Z.to_nat ((m mod 2 ^ 53) * n / 2 ^ 53) < length population)%nat).
    { pose proof (Z.mod_pos_bound m (2 ^ 53) ltac:(lia)) as Hb.
      assert ((m mod 2 ^ 53) * n / 2 ^ 53 < n)%Z.
      { apply Z.div_lt_upper_bound; [lia|]. nia. }
      assert (0 <= (m mod 2 ^ 53) * n / 2 ^ 53)%Z.
      { apply Z.div_pos; [nia|lia]. }
      subst n. lia. }
    destruct (lookup_lt_is_Some_2 _ _ Hidx) as [x Hx]. rewrite Hx.
    destruct (IH {| heap := heap p; random_state := g |}) as (items & g' & Hch & Hlen & Hin);
      [by right|].
    unfold mbind, M_bind. rewrite Hch. simpl.
    exists (x :: items), g'. split; [reflexivity|]. split; [simpl; by rewrite Hlen|].
    intros y [->|Hy]%elem_of_cons; [|by apply Hin].
    by eapply list_elem_of_lookup_2.
Qed.
End choices_lemmas.

Lemma out_of_range_true (k n : Z) :
  ((k <? 0) || (k >? n))%Z = true <-> (k < 0 \/ k > n)%Z.
Proof. rewrite orb_true_iff, Z.ltb_lt, Z.gtb_ltb, Z.ltb_lt. lia. Qed.

Lemma out_of_range_false (k n : Z) :
  ((k <? 0) || (k >? n))%Z = false <-> (0 <= k <= n)%Z.
Proof. rewrite orb_false_iff, Z.ltb_ge, Z.gtb_ltb, Z.ltb_ge. lia. Qed.

Section iterator_theorems.
Context {G : Type} `{!Random G} `{!TypeRepr}.
Implicit Types (p : process G) (datasets : list tf_data.Dataset).

Lemma iterator_datasets p self l ft datasets :
  heap p !! self = Some (IteratorObject l ft) ->
  heap p !! l = Some (ListObject datasets) ->
  DatasetDataSourceIterator._datasets self p = (Ok datasets, p).
Proof.
  intros Hself Hl.
  unfold DatasetDataSourceIterator._datasets, DatasetDataSourceIterator.fields, load,
    mbind, M_bind.
  rewrite Hself. simpl. by rewrite Hl.
Qed.

Lemma select_unfold p self l ft datasets number_of_clients :
  heap p !! self = Some (IteratorObject l ft) ->
  heap p !! l = Some (ListObject datasets) ->
  DatasetDataSourceIterator.select self number_of_clients p =
  match number_of_clients with
  | None => (Raise (ValueError DatasetDataSourceIterator.select_message), p)
  | Some k =>
      if ((k <? 0) || (k >? Z.of_nat (length datasets)))%Z
      then (Raise (ValueError DatasetDataSourceIterator.select_message), p)
      else random.choices datasets (Z.to_nat k) p
  end.
Proof.
  intros Hself Hl. unfold DatasetDataSourceIterator.select.
  destruct number_of_clients as [k|]; [|done].
  destruct (k <? 0)%Z; [done|]. simpl.
  unfold mbind, M_bind. rewrite (iterator_datasets p self l ft datasets Hself Hl).
  by destruct (k >? _)%Z.
Qed.

Lemma select_keeps_heap p self number_of_clients :
  heap (DatasetDataSourceIterator.select self number_of_clients p).2 = heap p.
Proof.
  unfold DatasetDataSourceIterator.select.
  destruct number_of_clients as [k|]; [|done].
  destruct (k <? 0)%Z eqn:Hneg; [done|].
  unfold mbind, M_bind.
  unfold DatasetDataSourceIterator._datasets, DatasetDataSourceIterator.fields, load,
    mbind, M_bind.
  destruct (heap p !! self) as [[]|]; simpl; try done.
  destruct (heap p !! _) as [[items| |]|]; simpl; try done.
  destruct (k >? _)%Z eqn:Hk; [done|].
  destruct (choices_draws items (Z.to_nat k) p) as (out & g & Hch & _).
  { destruct items; [left|by right].
    apply Z.ltb_ge in Hneg. rewrite Z.gtb_ltb in Hk. apply Z.ltb_ge in Hk.
    simpl in Hk. lia. }
  by rewrite Hch.
Qed.

(** C3. On an iterator over N datasets, [select(k)] raises (the [ValueError]
    of the check, leaving everything as it was) exactly when [k] is missing,
    negative or strictly greater than N; for 0 <= k <= N it returns a list of
    exactly [k] items, each one of the N datasets; and the call leaves the
    iterator, its dataset collection and its federated type as they were, so
    that the next call finds them. *)
Theorem select_bounds p self l ft datasets number_of_clients :
  heap p !! self = Some (IteratorObject l ft) ->
  heap p !! l = Some (ListObject datasets) ->
  let N := Z.of_nat (length datasets) in
  let out := DatasetDataSourceIterator.select self number_of_clients p in
  let rejected :=
    number_of_clients = None
    \/ exists k, number_of_clients = Some k /\ (k < 0 \/ k > N)%Z in
  (rejected -> out = (Raise (ValueError DatasetDataSourceIterator.select_message), p))
  /\ ((exists e, out.1 = Raise e) -> rejected)
  /\ (forall k, number_of_clients = Some k -> (0 <= k <= N)%Z ->
      exists items,
        out.1 = Ok items /\ length items = Z.to_nat k
        /\ forall x, x ∈ items -> x ∈ datasets)
  /\ heap out.2 = heap p
  /\ heap out.2 !! self = Some (IteratorObject l ft)
  /\ heap out.2 !! l = Some (ListObject datasets)
  /\ DatasetDataSourceIterator.federated_type self out.2 = (Ok ft, out.2).
Proof.
  intros Hself Hl N out rejected.
  assert (Hheap : heap out.2 = heap p) by apply select_keeps_heap.
  assert (Hgood : forall k, number_of_clients = Some k -> (0 <= k <= N)%Z ->
            exists items, out.1 = Ok items /\ length items = Z.to_nat k
                          /\ forall x, x ∈ items -> x ∈ datasets).
  { intros k -> Hk. subst out. rewrite (select_unfold p self l ft datasets _ Hself Hl).
    replace ((k <? 0) || (k >? Z.of_nat (length datasets)))%Z with false
      by (symmetry; by apply out_of_range_false).
    destruct (choices_draws datasets (Z.to_nat k) p) as (items & g & Hch & Hlen & Hin).
    { destruct datasets; [left|by right]. subst N. simpl in Hk. lia. }
    rewrite Hch. by exists items. }
  repeat split; try done.
  - intros Hrej. subst out. rewrite (select_unfold p self l ft datasets _ Hself Hl).
    destruct Hrej as [->|(k & -> & Hk)]; [done|].
    replace ((k <? 0) || (k >? Z.of_nat (length datasets)))%Z with true; [done|].
    symmetry. by apply out_of_range_true.
  - intros [e He]. destruct number_of_clients as [k|]; [|by left].
    right. exists k. split; [done|].
    destruct (decide (0 <= k <= N)%Z) as [Hk|Hk]; [|lia].
    destruct (Hgood k eq_refl Hk) as (items & Hitems & _). congruence.
  - by rewrite Hheap.
  - by rewrite Hheap.
  - unfold DatasetDataSourceIterator.federated_type, DatasetDataSourceIterator.fields,
      load, mbind, M_bind.
    by rewrite Hheap, Hself.
Qed.
End iterator_theorems.

Section data_source_theorems.
Context {G : Type} `{!Random G} `{!TypeRepr}.
Implicit Types (p : process G) (datasets : list tf_data.Dataset).

Lemma lookup_new_object (h : list object) (o : object) :
  (h ++ [o]) !! length h = Some o.
Proof. rewrite lookup_app_r by lia. by rewrite Nat.sub_diag. Qed.

Lemma source_init_unfold p l first rest :
  heap p !! l = Some (ListObject (first :: rest)) ->
  DatasetDataSource.__init__ l p =
  match for_dataset_in_datasets (first :: rest) (first :: rest) None with
  | Ok (Some element_spec) =>
      (Ok (length (heap p)),
       {| heap := heap p ++ [DataSourceObject l
                               (FederatedType (SequenceType element_spec) CLIENTS)];
          random_state := random_state p |})
  | Ok None => (Raise (UnboundLocalError "element_spec"), p)
  | Raise e => (Raise e, p)
  end.
Proof.
  intros Hl. unfold DatasetDataSource.__init__, load, mbind, M_bind. rewrite Hl.
  unfold lift. by destruct (for_dataset_in_datasets _ _ _) as [[spec|]|e].
Qed.

Lemma iterator_init_unfold p l ft first rest :
  heap p !! l = Some (ListObject (first :: rest)) ->
  DatasetDataSourceIterator.__init__ l ft p =
  match for_dataset_in_datasets (first :: rest) (first :: rest) None with
  | Ok _ =>
      if is_federated ft
      then (Ok (length (heap p)),
            {| heap := heap p ++ [IteratorObject l ft];
               random_state := random_state p |})
      else (Raise (TypeError "Expected FederatedType."), p)
  | Raise e => (Raise e, p)
  end.
Proof.
  intros Hl. unfold DatasetDataSourceIterator.__init__, load, mbind, M_bind. rewrite Hl.
  unfold lift. destruct (for_dataset_in_datasets _ _ _) as [spec|e]; [|done].
  by destruct (is_federated ft).
Qed.

Lemma source_init_accepted p l datasets src p' :
  heap p !! l = Some (ListObject datasets) ->
  DatasetDataSource.__init__ l p = (Ok src, p') ->
  exists first,
    datasets !! 0%nat = Some first
    /\ homogeneous datasets
    /\ src = length (heap p)
    /\ heap p' = heap p ++ [DataSourceObject l
           (FederatedType (SequenceType (tf_data.element_spec first)) CLIENTS)].
Proof.
  intros Hl Hinit. destruct datasets as [|first rest].
  - unfold DatasetDataSource.__init__, load, mbind, M_bind in Hinit.
    rewrite Hl in Hinit. discriminate.
  - rewrite (source_init_unfold p l first rest Hl) in Hinit.
    destruct (for_dataset_in_datasets _ _ _) as [[spec|]|e] eqn:Hloop; try discriminate.
    assert (Hall := loop_accepted (first :: rest) first _ _ _ eq_refl Hloop).
    rewrite (loop_accepts (first :: rest) first _ None eq_refl Hall) in Hloop.
    injection Hloop as <-. injection Hinit as <- <-.
    exists first. repeat split.
    intros first' d [= <-] Hin. by apply Hall.
Qed.

(** C5. Constructing a [DatasetDataSource] fails when the dataset collection
    is empty and fails when a dataset's element type specification differs
    from the first dataset's; with a single dataset it succeeds whatever the
    dataset; and when it succeeds the collection is non-empty and homogeneous
    and the new object holds that collection and, as its [federated_type],
    the sequence of the element specification placed at [CLIENTS]. *)
Theorem data_source_construction p l datasets :
  heap p !! l = Some (ListObject datasets) ->
  (datasets = [] ->
     DatasetDataSource.__init__ l p = (Raise (ValueError empty_list_message), p))
  /\ (forall first d,
        datasets !! 0%nat = Some first -> d ∈ datasets ->
        tf_data.element_spec d <> tf_data.element_spec first ->
        exists msg, DatasetDataSource.__init__ l p = (Raise (ValueError msg), p))
  /\ (forall d, datasets = [d] -> is_Ok (DatasetDataSource.__init__ l p).1)
  /\ (forall src p',
        DatasetDataSource.__init__ l p = (Ok src, p') ->
        exists first,
          datasets !! 0%nat = Some first
          /\ homogeneous datasets
          /\ src = length (heap p)
          /\ heap p' = heap p ++ [DataSourceObject l
                 (FederatedType (SequenceType (tf_data.element_spec first)) CLIENTS)]
          /\ DatasetDataSource.federated_type src p' =
             (Ok (FederatedType (SequenceType (tf_data.element_spec first)) CLIENTS), p')).
Proof.
  intros Hl. repeat split.
  - intros ->. unfold DatasetDataSource.__init__, load, mbind, M_bind. by rewrite Hl.
  - intros first d Hfirst Hin Hne. destruct datasets as [|d0 rest]; [done|].
    rewrite (source_init_unfold p l d0 rest Hl).
    destruct (loop_rejects (d0 :: rest) first (d0 :: rest) None d Hfirst Hin Hne)
      as [msg ->].
    by exists msg.
  - intros d ->. rewrite (source_init_unfold p l d [] Hl).
    rewrite (loop_accepts [d] d [d] None eq_refl); [by eexists|].
    by intros d' ->%list_elem_of_singleton.
  - intros src p' Hinit.
    destruct (source_init_accepted p l datasets src p' Hl Hinit)
      as (first & Hfirst & Hhom & Hsrc & Hheap).
    exists first. repeat split; try done.
    unfold DatasetDataSource.federated_type, DatasetDataSource.fields, load,
      mbind, M_bind.
    by rewrite Hheap, Hsrc, lookup_new_object.
Qed.
End data_source_theorems.

Section iterator_construction.
Context {G : Type} `{!Random G} `{!TypeRepr}.
Implicit Types (p : process G) (datasets : list tf_data.Dataset).

Lemma iterator_init_accepts p l ft datasets :
  heap p !! l = Some (ListObject datasets) ->
  datasets <> [] -> homogeneous datasets -> is_federated ft = true ->
  DatasetDataSourceIterator.__init__ l ft p =
  (Ok (length (heap p)),
   {| heap := heap p ++ [IteratorObject l ft]; random_state := random_state p |}).
Proof.
  intros Hl Hne Hhom Hft. destruct datasets as [|first rest]; [done|].
  rewrite (iterator_init_unfold p l ft first rest Hl).
  rewrite (loop_accepts (first :: rest) first (first :: rest) None eq_refl).
  - by rewrite Hft.
  - intros d Hd. by apply (Hhom first d).
Qed.

Lemma iterator_init_accepted p l ft datasets it p' :
  heap p !! l = Some (ListObject datasets) ->
  DatasetDataSourceIterator.__init__ l ft p = (Ok it, p') ->
  datasets <> [] /\ homogeneous datasets /\ is_federated ft = true
  /\ it = length (heap p) /\ heap p' = heap p ++ [IteratorObject l ft].
Proof.
  intros Hl Hinit. destruct datasets as [|first rest].
  - unfold DatasetDataSourceIterator.__init__, load, mbind, M_bind in Hinit.
    rewrite Hl in Hinit. discriminate.
  - rewrite (iterator_init_unfold p l ft first rest Hl) in Hinit.
    destruct (for_dataset_in_datasets _ _ _) as [spec|e] eqn:Hloop; [|discriminate].
    destruct (is_federated ft) eqn:Hft; [|discriminate].
    injection Hinit as <- <-. repeat split; try done.
    intros first' d [= <-] Hin.
    by apply (loop_accepted (first :: rest) first _ _ _ eq_refl Hloop).
Qed.

Lemma source_iterator_unfold p self l ft :
  heap p !! self = Some (DataSourceObject l ft) ->
  DatasetDataSource.iterator self p = DatasetDataSourceIterator.__init__ l ft p.
Proof.
  intros Hself.
  unfold DatasetDataSource.iterator, DatasetDataSource.fields, load, mbind, M_bind.
  by rewrite Hself.
Qed.

(** C8, as amended. [DatasetDataSource.iterator()] constructs a
    [DatasetDataSourceIterator] on the very collection and the federated type
    the data source holds, and that constructor validates the collection
    again: on a non-empty homogeneous collection, as it is while unchanged
    since the data source was constructed, the call returns a new object that
    holds the same collection reference and the same federated type and
    changes nothing else; on a collection emptied or made heterogeneous since,
    it raises [ValueError]. *)
Theorem iterator_shares_and_revalidates p self l ft datasets :
  heap p !! self = Some (DataSourceObject l ft) ->
  heap p !! l = Some (ListObject datasets) ->
  is_federated ft = true ->
  let out := DatasetDataSource.iterator self p in
  (datasets <> [] -> homogeneous datasets ->
     out = (Ok (length (heap p)),
            {| heap := heap p ++ [IteratorObject l ft];
               random_state := random_state p |}))
  /\ (forall p0, DatasetDataSource.__init__ l p0 = (Ok self, p) ->
        out = (Ok (length (heap p)),
               {| heap := heap p ++ [IteratorObject l ft];
                  random_state := random_state p |}))
  /\ (datasets = [] -> out = (Raise (ValueError empty_list_message), p))
  /\ (forall first d,
        datasets !! 0%nat = Some first -> d ∈ datasets ->
        tf_data.element_spec d <> tf_data.element_spec first ->
        exists msg, out = (Raise (ValueError msg), p))
  /\ (forall it p', out = (Ok it, p') ->
        datasets <> [] /\ homogeneous datasets
        /\ it = length (heap p) /\ heap p' = heap p ++ [IteratorObject l ft]).
Proof.
  intros Hself Hl Hft out. subst out. rewrite (source_iterator_unfold p self l ft Hself).
  split; [|split; [|split; [|split]]].
  - intros Hne Hhom. by apply (iterator_init_accepts p l ft datasets).
  - intros p0 Hinit.
    assert (exists ds0, heap p0 !! l = Some (ListObject ds0)) as [ds0 Hl0].
    { unfold DatasetDataSource.__init__, load, mbind, M_bind in Hinit.
      destruct (heap p0 !! l) as [[ds0| |]|]; try discriminate. by exists ds0. }
    destruct (source_init_accepted p0 l ds0 self p Hl0 Hinit)
      as (first & Hfirst & Hhom & _ & Hheap).
    assert (datasets = ds0) as ->.
    { rewrite Hheap, lookup_app_l in Hl by (by eapply lookup_lt_Some). congruence. }
    apply (iterator_init_accepts p l ft ds0); try done.
    intros ->. discriminate.
  - intros ->. unfold DatasetDataSourceIterator.__init__, load, mbind, M_bind.
    by rewrite Hl.
  - intros first d Hfirst Hin Hne. destruct datasets as [|d0 rest]; [done|].
    rewrite (iterator_init_unfold p l ft d0 rest Hl).
    destruct (loop_rejects (d0 :: rest) first (d0 :: rest) None d Hfirst Hin Hne)
      as [msg ->].
    by exists msg.
  - intros it p' Hout.
    by destruct (iterator_init_accepted p l ft datasets it p' Hl Hout) as (? & ? & ? & ? & ?).
Qed.

Lemma select_calls_keep_heap (self : nat) (requests : list (option Z)) p :
  heap (select_calls self requests p) = heap p.
Proof.
  revert p. induction requests as [|k requests IH]; intros p; simpl; [done|].
  by rewrite IH, select_keeps_heap.
Qed.

(** C10. The constructor of [DatasetDataSourceIterator] accepts every
    [FederatedType] as [federated_type], whatever its member and placement and
    whatever the element specification of the datasets, and the
    [federated_type] property of the new iterator returns the type that was
    passed, after construction and after any run of [select] calls. *)
Theorem iterator_accepts_any_federated_type p l datasets member placement :
  heap p !! l = Some (ListObject datasets) ->
  datasets <> [] -> homogeneous datasets ->
  let federated_type := FederatedType member placement in
  exists it p1,
    DatasetDataSourceIterator.__init__ l federated_type p = (Ok it, p1)
    /\ DatasetDataSourceIterator.federated_type it p1 = (Ok federated_type, p1)
    /\ forall requests,
         DatasetDataSourceIterator.federated_type it (select_calls it requests p1) =
         (Ok federated_type, select_calls it requests p1).
Proof.
  intros Hl Hne Hhom ft. eexists _, _.
  split; [by apply (iterator_init_accepts p l ft datasets)|].
  assert (Hread : forall q : process G,
            heap q = heap p ++ [IteratorObject l ft] ->
            DatasetDataSourceIterator.federated_type (length (heap p)) q = (Ok ft, q)).
  { intros q Hq.
    unfold DatasetDataSourceIterator.federated_type, DatasetDataSourceIterator.fields,
      load, mbind, M_bind.
    by rewrite Hq, lookup_new_object. }
  split; [by apply Hread|].
  intros requests. apply Hread. by rewrite select_calls_keep_heap.
Qed.
End iterator_construction.

(** ** Equality of value references *)

Section reference_equality.
Context {raw St : Type}.
Variable py_eq : py_value raw -> py_value raw -> py_result (py_value raw).
Variable truth : py_value raw -> py_result bool.
Variable py_list : py_value raw -> M St (list (nat * py_value raw)).
Import NumpyValueReference.




End reference_equality.

(** ** The properties at concrete inputs *)

Section concrete.
Import examples.
#[local] Existing Instances kind_repr keep_container lcg.



(** A value with an ordered dictionary in it, under a type placed at
    [SERVER], round-trips as well. *)
Example round_trip_of_nested_value_holds :
  round_trips nested_value nested_type.
Proof. apply matching_round_trips; reflexivity. Qed.

(** The ordered dictionary inside [nested_value] comes back as a [Struct]
    with the same field. *)
Example round_trip_of_nested_value :
  (refs ← _create_structure_of_value_references nested_value nested_type;
   _materialize_structure_of_value_references refs nested_type)
  = Ok nested_struct_value.
Proof. reflexivity. Qed.

Lemma other_kind_witness :
  is_struct PlacementType = false /\ is_federated PlacementType = false
  /\ is_sequence PlacementType = false /\ is_tensor PlacementType = false
  /\ _create_structure_of_value_references (Raw 1%Z) PlacementType
     = Raise (NotImplementedError "Unexpected type found: placement.")
  /\ _materialize_structure_of_value_references (Raw 1%Z) PlacementType = Ok (Raw 1%Z).
Proof.
  repeat (split; [reflexivity|]).
  apply (other_kind_wrap_raises_unwrap_passes (Raw 1%Z) PlacementType);
    reflexivity.
Defined.

Lemma struct_walk_stops_at_shorter_witness :
  structure.from_container three_items
  = Ok [(None, Raw 1%Z); (None, Raw 2%Z); (None, Raw 3%Z)]
  /\ _create_structure_of_value_references three_items
       (StructType two_fields)
     = _create_structure_of_value_references
         (Struct [(None, Raw 1%Z); (None, Raw 2%Z)]) (StructType two_fields).
Proof.
  split; [reflexivity|].
  exact (proj1 (struct_walk_stops_at_shorter three_items two_fields
                  [(None, Raw 1%Z); (None, Raw 2%Z); (None, Raw 3%Z)] eq_refl)).
Defined.

(** A list against named fields: the result carries the names of the type. *)
Example list_against_named_fields :
  conforms (PyList [Raw 1%Z; Raw 2%Z]) (StructType two_fields) = true
  /\ matches (PyList [Raw 1%Z; Raw 2%Z]) (StructType two_fields) = false
  /\ (refs ← _create_structure_of_value_references (PyList [Raw 1%Z; Raw 2%Z])
               (StructType two_fields);
      _materialize_structure_of_value_references refs (StructType two_fields))
     = Ok (Struct [(Some "a", Raw 1%Z); (Some "b", Raw 2%Z)]).
Proof. repeat split. Qed.

(** Three items against two fields: the third item is dropped. *)
Example three_items_two_fields :
  _create_structure_of_value_references three_items (StructType two_fields)
  = Ok (Struct [(Some "a", NumpyValueRef (Raw 1%Z) int32);
                (Some "b", NumpyValueRef (Raw 2%Z) int32)]).
Proof. reflexivity. Qed.

(** One item against two fields: the second field is dropped. *)
Example one_item_two_fields :
  _materialize_structure_of_value_references (PyList [Raw 1%Z]) (StructType two_fields)
  = Ok (Struct [(Some "a", Raw 1%Z)]).
Proof. reflexivity. Qed.

Lemma invoke_result_type_gate_witness :
  contains_client_placed
    (computation_base.result (computation_base.type_signature clients_comp)) = true
  /\ NativeFederatedContext.invoke
       (NativeFederatedContext.__init__ counting_engine) clients_comp (Raw 3%Z) fresh_world
     = (Raise (ValueError
                 (NativeFederatedContext.result_type_message
                    (computation_base.result
                       (computation_base.type_signature clients_comp)))),
        fresh_world).
Proof.
  split; [reflexivity|].
  exact (proj1 (proj1 (invoke_result_type_gate
                         (NativeFederatedContext.__init__ counting_engine)
                         clients_comp (Raw 3%Z) fresh_world) eq_refl)).
Defined.

(** The claim of exactly one [ingest] and one [invoke] per call fails on a
    computation that declares no parameter: the engine's [ingest] is not
    called. *)
Lemma invoke_calls_both_once_counterexample :
  let w := (NativeFederatedContext.invoke
              (NativeFederatedContext.__init__ counting_engine)
              server_comp (Raw 3%Z) fresh_world).2 in
  ~ (count_calls is_ingest_call (calls w) = 1%nat
     /\ count_calls is_invoke_call (calls w) = 1%nat).
Proof. vm_compute. intros [Hingest _]. discriminate. Qed.

Lemma invoke_engine_calls_witness :
  federated_context.contains_only_server_placed_data
    (computation_base.result (computation_base.type_signature unary_comp)) = true
  /\ exists new,
       calls (NativeFederatedContext.invoke
                (NativeFederatedContext.__init__ counting_engine)
                unary_comp (Raw 3%Z) fresh_world).2 = calls fresh_world ++ new
       /\ count_calls is_ingest_call new = 1%nat
       /\ count_calls is_invoke_call new = 1%nat.
Proof.
  split; [reflexivity|].
  exact (invoke_engine_calls
           (NativeFederatedContext.__init__ counting_engine)
           unary_comp (Raw 3%Z) fresh_world eq_refl).
Defined.

(** When the engine's [ingest] raises, its [invoke] is not called. *)
Example refused_ingest :
  calls (NativeFederatedContext.invoke
           (NativeFederatedContext.__init__ refusing_engine)
           unary_comp (Raw 3%Z) fresh_world).2
  = [CallIngest (Raw 3%Z) int32].
Proof. reflexivity. Qed.
Lemma select_bounds_witness :
  heap three_clients !! 1%nat = Some (IteratorObject 0 clients_type)
  /\ heap three_clients !! 0%nat = Some (ListObject [dataset 0; dataset 1; dataset 2])
  /\ exists items,
       (DatasetDataSourceIterator.select 1 (Some 2%Z) three_clients).1 = Ok items
       /\ length items = Z.to_nat 2
       /\ forall x, x ∈ items -> x ∈ [dataset 0; dataset 1; dataset 2].
Proof.
  split; [reflexivity|]. split; [reflexivity|].
  refine (proj1 (proj2 (proj2
            (select_bounds three_clients 1 0 clients_type
               [dataset 0; dataset 1; dataset 2] (Some 2%Z) eq_refl eq_refl)))
            2%Z eq_refl _).
  simpl. lia.
Defined.

(** With this generator, two of three clients: the second, then the first. *)
Example select_two_of_three :
  (DatasetDataSourceIterator.select 1 (Some 2%Z) three_clients).1
  = Ok [dataset 1; dataset 0].
Proof. vm_compute. reflexivity. Qed.

(** Zero clients are accepted, four of three are not. *)
Example select_none_and_too_many :
  (DatasetDataSourceIterator.select 1 (Some 0%Z) three_clients).1 = Ok []
  /\ (DatasetDataSourceIterator.select 1 (Some 4%Z) three_clients).1
     = Raise (ValueError DatasetDataSourceIterator.select_message).
Proof. split; reflexivity. Qed.

Lemma data_source_construction_witness :
  heap one_client !! 0%nat = Some (ListObject [dataset 0])
  /\ is_Ok (DatasetDataSource.__init__ 0 one_client).1.
Proof.
  split; [reflexivity|].
  exact (proj1 (proj2 (proj2
           (data_source_construction one_client 0 [dataset 0] eq_refl)))
           (dataset 0) eq_refl).
Defined.

(** The data source over one client, and the refusal of two clients of
    different specifications. *)
Example data_source_of_one_client :
  DatasetDataSource.__init__ 0 one_client
  = (Ok 1%nat,
     {| heap := [ListObject [dataset 0]; DataSourceObject 0 clients_type];
        random_state := 42%Z |}).
Proof. reflexivity. Qed.

Example data_source_of_mixed_clients :
  (DatasetDataSource.__init__ 0 mixed_clients).1
  = Raise (ValueError (type_specification_message int32 (TensorType "string" []))).
Proof. reflexivity. Qed.



(** Equal numbers under the same type signature: [==] returns [True], and
    that is returned. An object that is no reference gets
    [NotImplemented]. *)
Example reference_equal_and_not_implemented :
  NumpyValueReference.__eq__ np_eq np_truth np_list number_reference
    (2%nat, NumpyValueRef (Raw (number 7)) int32) shared_nan
  = (Ok (NumpyValueReference.Compared (as_bool true)), shared_nan)
  /\ NumpyValueReference.__eq__ np_eq np_truth np_list number_reference
       (2%nat, Raw (number 7)) shared_nan
     = (Ok NumpyValueReference.NotImplemented, shared_nan).
Proof. split; reflexivity. Qed.

(** Two references of tensor type to arrays: what is returned is the array
    of the comparisons, not a bool. *)
Example array_references_compare_to_an_array :
  NumpyValueReference.__eq__ np_eq np_truth np_list array_reference
    (2%nat, NumpyValueRef (PyList [Raw (number 1); Raw (number 3)])
              (TensorType "int32" [2%Z])) shared_nan
  = (Ok (NumpyValueReference.Compared (PyList [as_bool true; as_bool false])),
     shared_nan).
Proof. reflexivity. Qed.

(** Two references of sequence type whose elements are different array
    objects: [list == list] asks for the truth value of an array, which
    raises. *)
Example sequences_of_arrays_raise :
  (NumpyValueReference.__eq__ np_eq np_truth np_list sequence_reference
     (2%nat, NumpyValueRef (Raw (iterable 1)) float_sequence) two_arrays).1
  = Raise (ValueError ambiguous_message).
Proof. reflexivity. Qed.

(** Two references to one iterable that can be read once: the first
    [list(...)] takes its element, the second finds none, and the lists
    differ in length. *)
Example one_shot_iterable_differs_from_itself :
  NumpyValueReference.__eq__ np_eq np_truth np_list_once sequence_reference
    (2%nat, NumpyValueRef (Raw (iterable 0)) float_sequence) shared_nan
  = (Ok (NumpyValueReference.PyBool false), [[]; [(7%nat, Raw nan)]]).
Proof. reflexivity. Qed.

(** The claim that [iterator()] always returns an iterator and validates
    nothing fails once the caller has emptied the list it passed: the data
    source is constructed, the list is cleared, and [iterator()] raises the
    error of the empty collection. *)
Lemma iterator_validates_again_counterexample :
  exists src p1 p2,
    DatasetDataSource.__init__ 0 one_client = (Ok src, p1)
    /\ list_clear 0 p1 = (Ok tt, p2)
    /\ heap p2 !! src = Some (DataSourceObject 0 clients_type)
    /\ ~ is_Ok (DatasetDataSource.iterator src p2).1
    /\ (DatasetDataSource.iterator src p2).1 = Raise (ValueError empty_list_message).
Proof.
  eexists _, _, _. split; [reflexivity|]. split; [reflexivity|].
  split; [reflexivity|]. split; [|reflexivity].
  intros [it Hit]. discriminate.
Qed.

Lemma iterator_shares_and_revalidates_witness :
  let p := (DatasetDataSource.__init__ 0 one_client).2 in
  heap p !! 1%nat = Some (DataSourceObject 0 clients_type)
  /\ heap p !! 0%nat = Some (ListObject [dataset 0])
  /\ is_federated clients_type = true
  /\ DatasetDataSource.iterator 1 p
     = (Ok 2%nat,
        {| heap := heap p ++ [IteratorObject 0 clients_type];
           random_state := random_state p |}).
Proof.
  split; [reflexivity|]. split; [reflexivity|]. split; [reflexivity|].
  exact (proj1 (proj2
           (iterator_shares_and_revalidates (DatasetDataSource.__init__ 0 one_client).2
              1 0 clients_type [dataset 0] eq_refl eq_refl eq_refl))
           one_client eq_refl).
Defined.

Lemma homogeneous_three : homogeneous [dataset 0; dataset 1; dataset 2].
Proof.
  intros first d [= <-] Hd.
  repeat (apply elem_of_cons in Hd as [->|Hd]; [reflexivity|]).
  by apply elem_of_nil in Hd.
Defined.

Lemma iterator_accepts_any_federated_type_witness :
  heap three_clients !! 0%nat = Some (ListObject [dataset 0; dataset 1; dataset 2])
  /\ [dataset 0; dataset 1; dataset 2] <> []
  /\ homogeneous [dataset 0; dataset 1; dataset 2]
  /\ exists it p1,
       DatasetDataSourceIterator.__init__ 0 (FederatedType float_type SERVER) three_clients
       = (Ok it, p1)
       /\ DatasetDataSourceIterator.federated_type it p1
          = (Ok (FederatedType float_type SERVER), p1)
       /\ forall requests,
            DatasetDataSourceIterator.federated_type it (select_calls it requests p1)
            = (Ok (FederatedType float_type SERVER), select_calls it requests p1).
Proof.
  assert (Hne : [dataset 0; dataset 1; dataset 2] <> []) by discriminate.
  split; [reflexivity|]. split; [exact Hne|]. split; [exact homogeneous_three|].
  exact (iterator_accepts_any_federated_type three_clients 0
           [dataset 0; dataset 1; dataset 2] float_type SERVER eq_refl Hne homogeneous_three).
Defined.

(** An iterator built with a server-placed float type over integer datasets
    keeps reporting that type after [select] calls of every kind. *)
Example federated_type_after_selects :
  let it := 2%nat in
  let p1 := (DatasetDataSourceIterator.__init__ 0 (FederatedType float_type SERVER)
               three_clients).2 in
  (DatasetDataSourceIterator.federated_type it
     (select_calls it [Some 2%Z; None; Some (-1)%Z; Some 3%Z] p1)).1
  = Ok (FederatedType float_type SERVER).
Proof. vm_compute. reflexivity. Qed.
End concrete.

(** * Further properties *)

(** ** The walkers: errors, composition, placements *)

Section walker_failures.
Context {raw : Type} `{!TypeRepr}.
Implicit Types (value v : py_value raw) (t : tff_type).

Lemma zip_walk_raises (Q : exn -> Prop)
    (f : py_value raw -> tff_type -> py_result (py_value raw)) fields :
  Forall (fun fld => forall v e, f v fld.2 = Raise e -> Q e) fields ->
  forall values e, zip_walk f fields values = Raise e -> Q e.
Proof.
  induction 1 as [|[name t] fields Ht _ IH]; intros [|v values] e; simpl;
    try discriminate.
  destruct (f v t) as [w|e1] eqn:Hf; simpl.
  - destruct (zip_walk f fields values) as [rest|e2] eqn:Hz; simpl; [discriminate|].
    intros [= <-]. by apply (IH values).
  - intros [= <-]. by apply (Ht v).
Qed.

Lemma from_container_raises value e :
  structure.from_container value = Raise e -> exists msg, e = TypeError msg.
Proof. destruct value; simpl; intros [= <-]; by eexists. Qed.

Lemma materialize_raises_TypeError t :
  forall value e,
    _materialize_structure_of_value_references value t = Raise e ->
    exists msg, e = TypeError msg.
Proof.
  induction t as [d s|fields IH|t _|t p IH| | |] using tff_type_nested_ind;
    intros value e; try (simpl; discriminate).
  - rewrite materialize_struct.
    destruct (structure.from_container value) as [es|e0] eqn:Hes; simpl.
    + destruct (zip_walk _ fields _) as [rest|e1] eqn:Hz; simpl; [discriminate|].
      intros [= <-].
      by apply (zip_walk_raises (fun e => exists msg, e = TypeError msg) _ fields IH _ _ Hz).
    + intros [= <-]. by apply (from_container_raises value).
  - apply IH.
Qed.

Lemma create_raises_TypeError t :
  walkable t = true ->
  forall value e,
    _create_structure_of_value_references value t = Raise e ->
    exists msg, e = TypeError msg.
Proof.
  induction t as [d s|fields IH|t _|t p IH| | |] using tff_type_nested_ind;
    intros Hw value e; try (simpl in *; discriminate).
  - rewrite create_struct.
    destruct (structure.from_container value) as [es|e0] eqn:Hes; simpl.
    + destruct (zip_walk _ fields _) as [rest|e1] eqn:Hz; simpl; [discriminate|].
      intros [= <-].
      apply (zip_walk_raises (fun e => exists msg, e = TypeError msg)
               _create_structure_of_value_references fields)
        with (values := structure.iter es); [|done].
      simpl in Hw. clear Hz.
      induction IH as [|fld fields Hfld _ IHf]; [constructor|].
      simpl in Hw. apply andb_true_iff in Hw as [Hw1 Hw2].
      constructor; [by apply Hfld|by apply IHf].
    + intros [= <-]. by apply (from_container_raises value).
  - simpl in Hw. by apply IH.
Qed.

(** X1. Unwrap raises nothing but [TypeError]. Wrap raises nothing but
    [TypeError] and [NotImplementedError], and the latter only on a type
    signature that has a node of another kind than struct, federated,
    sequence and tensor. *)
Theorem walker_failures value t e :
  (_materialize_structure_of_value_references value t = Raise e ->
   exists msg, e = TypeError msg)
  /\ (_create_structure_of_value_references value t = Raise e ->
      (exists msg, e = TypeError msg)
      \/ (walkable t = false /\ exists msg, e = NotImplementedError msg)).
Proof.
  split.
  - apply materialize_raises_TypeError.
  - intros Hraise. destruct (walkable t) eqn:Hw.
    + left. by apply (create_raises_TypeError t Hw value).
    + apply create_raises_walker_error in Hraise.
      destruct e; simpl in Hraise; try done; [left|right]; eauto.
Qed.
End walker_failures.

Section walker_composition.
Context {raw : Type} `{!TypeRepr}.
Implicit Types (value v : py_value raw) (t : tff_type).

Lemma fields_rewrap fields :
  Forall (fun fld => forall value refs,
            _create_structure_of_value_references value fld.2 = Ok refs ->
            exists value',
              _materialize_structure_of_value_references refs fld.2 = Ok value'
              /\ _create_structure_of_value_references value' fld.2 = Ok refs) fields ->
  forall values refs,
    zip_walk _create_structure_of_value_references fields values = Ok refs ->
    exists es' : list (option string * py_value raw),
      zip_walk _materialize_structure_of_value_references fields (structure.iter refs)
      = Ok es'
      /\ zip_walk _create_structure_of_value_references fields (structure.iter es')
         = Ok refs.
Proof.
  induction 1 as [|[name t] fields Ht _ IH]; intros [|v values] refs; simpl;
    try (intros [= <-]; by exists []).
  destruct (_create_structure_of_value_references v t) as [r|] eqn:Hr; simpl;
    [|discriminate].
  destruct (zip_walk _create_structure_of_value_references fields values)
    as [rest|] eqn:Hrest; simpl; [|discriminate].
  intros [= <-].
  destruct (Ht v r Hr) as (v' & Hv' & Hr'). simpl in *.
  destruct (IH values rest Hrest) as (es' & Hes' & Hrest').
  exists ((name, v') :: es'). simpl.
  rewrite Hv'. simpl. rewrite Hes'. simpl. rewrite Hr'. simpl. by rewrite Hrest'.
Qed.

(** X2. Whenever Wrap succeeds, Unwrap of its result under the same type
    signature succeeds as well, and wrapping the materialized value again
    gives back the same structure of references: whatever Wrap dropped or
    renamed on the first pass, the second pass changes nothing. *)
Theorem wrap_unwrap_wrap t :
  forall value refs,
    _create_structure_of_value_references value t = Ok refs ->
    exists value',
      _materialize_structure_of_value_references refs t = Ok value'
      /\ _create_structure_of_value_references value' t = Ok refs.
Proof.
  induction t as [d s|fields IH|t _|t p IH| | |] using tff_type_nested_ind;
    intros value refs; try (simpl; discriminate).
  - simpl. intros [= <-]. by exists value.
  - intros Hwrap. rewrite create_struct in Hwrap.
    destruct (structure.from_container value) as [es|] eqn:Hes; [|discriminate].
    simpl in Hwrap.
    destruct (zip_walk _ fields _) as [rs|] eqn:Hrs; [|discriminate].
    injection Hwrap as <-.
    destruct (fields_rewrap fields IH _ _ Hrs) as (es' & Hes' & Hrs').
    exists (Struct es').
    rewrite materialize_struct, create_struct. simpl.
    rewrite Hes'. simpl. by rewrite Hrs'.
  - simpl. intros [= <-]. by exists value.
  - apply IH.
Qed.

(** X3. Placements are erased by both walkers: each gives on a type
    signature what it gives on that signature with every federated node
    replaced by its member, whatever the placements are. *)
Theorem walkers_ignore_placement t :
  forall value,
    _create_structure_of_value_references value t =
    _create_structure_of_value_references value (without_placement t)
    /\ _materialize_structure_of_value_references value t =
       _materialize_structure_of_value_references value (without_placement t).
Proof.
  induction t as [d s|fields IH|t _|t p IH| | |] using tff_type_nested_ind;
    intros value; try (split; reflexivity).
  - change (without_placement (StructType fields))
      with (StructType (map (fun e => (e.1, without_placement e.2)) fields)).
    rewrite !create_struct, !materialize_struct.
    destruct (structure.from_container value) as [es|]; simpl; [|done].
    assert (Hzip : forall values : list (py_value raw),
      zip_walk _create_structure_of_value_references fields values =
      zip_walk _create_structure_of_value_references
        (map (fun e => (e.1, without_placement e.2)) fields) values
      /\ zip_walk _materialize_structure_of_value_references fields values =
         zip_walk _materialize_structure_of_value_references
           (map (fun e => (e.1, without_placement e.2)) fields) values).
    { induction IH as [|[name t] fields Ht _ IHf]; intros [|v values]; simpl;
        try done.
      destruct (Ht v) as [H1 H2]. simpl in H1, H2.
      destruct (IHf values) as [H3 H4].
      by rewrite <- H1, <- H2, <- H3, <- H4. }
    by destruct (Hzip (structure.iter es)) as [<- <-].
  - simpl. apply IH.
Qed.
End walker_composition.

(** ** The federated context: ingestion and errors *)

Section ingest_theorems.
Context {raw E : Type} `{!TypeRepr} `{!ContainerConversion raw}.
Implicit Types (self : NativeFederatedContext.t (raw := raw) (E := E))
  (value v : py_value raw) (t : tff_type).

Lemma references_unnested_struct value fields :
  references_unnested value (StructType fields) =
  match structure.from_container value with
  | Ok elements => fields_all references_unnested fields elements
  | Raise _ => true
  end.
Proof. reflexivity. Qed.

Lemma fields_materialize_again fields :
  Forall (fun fld => forall value value',
            references_unnested value fld.2 = true ->
            _materialize_structure_of_value_references value fld.2 = Ok value' ->
            _materialize_structure_of_value_references value' fld.2 = Ok value') fields ->
  forall (es es' : list (option string * py_value raw)),
    fields_all references_unnested fields es = true ->
    zip_walk _materialize_structure_of_value_references fields (structure.iter es) = Ok es' ->
    zip_walk _materialize_structure_of_value_references fields (structure.iter es') = Ok es'.
Proof.
  induction 1 as [|[name t] fields Ht _ IH]; intros [|[name' v] es] es'; simpl;
    try (intros _ [= <-]; done).
  rewrite andb_true_iff. intros [Hv Hes].
  destruct (_materialize_structure_of_value_references v t) as [v'|] eqn:Hv'; simpl;
    [|discriminate].
  destruct (zip_walk _materialize_structure_of_value_references fields (structure.iter es))
    as [rest|] eqn:Hrest; simpl; [|discriminate].
  intros [= <-]. simpl.
  pose proof (Ht v v' Hv Hv') as Hagain. simpl in Hagain. rewrite Hagain. simpl.
  change (map snd rest) with (structure.iter rest).
  by rewrite (IH es rest Hes Hrest).
Qed.

(** X4. Ingesting is idempotent on values whose references are not nested:
    when no reference at a leaf refers to another reference, what [ingest]
    returns is ingested to itself. A reference to a reference loses one layer
    at each pass. *)
Theorem ingest_idempotent self t :
  forall value value',
    references_unnested value t = true ->
    NativeFederatedContext.ingest self value t = Ok value' ->
    NativeFederatedContext.ingest self value' t = Ok value'.
Proof.
  unfold NativeFederatedContext.ingest.
  induction t as [d s|fields IH|t _|t p IH| | |] using tff_type_nested_ind;
    intros value value' Hun Hin; try (simpl in *; by injection Hin as <-).
  - simpl in *. injection Hin as <-. by destruct value as [| [] | | |].
  - rewrite references_unnested_struct in Hun. rewrite materialize_struct in Hin.
    destruct (structure.from_container value) as [es|] eqn:Hes; [|discriminate].
    simpl in Hin.
    destruct (zip_walk _ fields _) as [es'|] eqn:Hes'; [|discriminate].
    injection Hin as <-. rewrite materialize_struct. simpl.
    by rewrite (fields_materialize_again fields IH es es' Hun Hes').
  - simpl in *. injection Hin as <-. by destruct value as [| [] | | |].
  - simpl in *. by apply (IH value).
Qed.
End ingest_theorems.

Section invoke_failures.
Context {raw E : Type} `{!TypeRepr} `{!ContainerConversion raw}.
Import federated_context.
Implicit Types (self : NativeFederatedContext.t (raw := raw) (E := E))
  (comp : computation_base.Computation) (arg : py_value raw) (w : world raw E).

Lemma gate_walkable t :
  contains_only_server_placed_data t = true -> walkable t = true.
Proof.
  unfold contains_only_server_placed_data.
  induction t as [d s|fields IH|t IH|t p IH|p r IHp IHr| |] using tff_type_nested_ind;
    simpl; try done.
  - induction IH as [|[name t] fields Ht _ IHf]; simpl; [done|].
    rewrite !andb_true_iff. intros [Hhd Htl]. split; [by apply Ht|by apply IHf].
  - rewrite andb_true_iff. intros [_ Hm]. by apply IH.
Qed.

Lemma bind_raises {St A B} (Q : exn -> Prop) (m : M St A) (f : A -> M St B) :
  (forall s e, (m s).1 = Raise e -> Q e) ->
  (forall a s e, (f a s).1 = Raise e -> Q e) ->
  forall s e, ((m ≫= f) s).1 = Raise e -> Q e.
Proof.
  intros Hm Hf s e. unfold mbind, M_bind. specialize (Hm s).
  destruct (m s) as [[a|e0] s']; simpl in *; [apply Hf|].
  intros [= <-]. by apply Hm.
Qed.

Lemma from_collaborator_raises {A} (r : collaborator_result A) e :
  from_collaborator r = Raise e -> exists what, e = CollaboratorError what.
Proof. destruct r; simpl; intros [= <-]. by eexists. Qed.

(** X5. [invoke] raises nothing but: the [ValueError] of the result-type
    check, with the engine untouched; whatever a collaborator raised; and the
    [TypeError] of Wrap, when the engine's result is no container where the
    result type has a struct. It never raises [NotImplementedError]: a result
    type that passes the check has only kinds that Wrap implements. *)
Theorem invoke_failures self comp arg w e :
  (NativeFederatedContext.invoke self comp arg w).1 = Raise e ->
  let result_type := computation_base.result (computation_base.type_signature comp) in
  (contains_only_server_placed_data result_type = false
   /\ e = ValueError (NativeFederatedContext.result_type_message result_type)
   /\ (NativeFederatedContext.invoke self comp arg w).2 = w)
  \/ (contains_only_server_placed_data result_type = true
      /\ ((exists what, e = CollaboratorError what) \/ (exists msg, e = TypeError msg))).
Proof.
  intros Hraise result_type.
  destruct (contains_only_server_placed_data result_type) eqn:Hgate.
  - right. split; [done|]. revert Hraise.
    unfold NativeFederatedContext.invoke. fold result_type. rewrite Hgate. simpl.
    revert w e.
    apply (bind_raises
             (fun e => (exists what, e = CollaboratorError what)
                       \/ (exists msg, e = TypeError msg))).
    + intros w0 e0. destruct (computation_base.parameter _) as [p|]; [|discriminate].
      unfold NativeFederatedContext.context_ingest.
      destruct (context_base.ingest _ arg p _) as [r s0]. simpl.
      intros Hr. left. by apply (from_collaborator_raises r).
    + intros a. apply bind_raises.
      * intros w0 e0. unfold NativeFederatedContext.context_invoke.
        destruct (context_base.invoke _ comp a _) as [r s0]. simpl.
        intros Hr. left. by apply (from_collaborator_raises r).
      * intros res. apply bind_raises.
        -- intros w0 e0. unfold lift. simpl. intros Hwrap. right.
           by apply (create_raises_TypeError result_type (gate_walkable _ Hgate) res).
        -- intros refs. apply bind_raises; [|discriminate].
           intros w0 e0. unfold lift. simpl. intros Hr. left.
           by apply (from_collaborator_raises (type_to_py_container refs result_type)).
  - left. rewrite (invoke_rejected self comp arg w Hgate) in Hraise |- *.
    simpl in Hraise. injection Hraise as <-. done.
Qed.
End invoke_failures.

(** ** The data source and its iterator: construction, generator, composition *)

Section iterator_validation.
Context {G : Type} `{!Random G} `{!TypeRepr}.
Implicit Types (p : process G) (datasets : list tf_data.Dataset).

(** X6. Constructed directly, a [DatasetDataSourceIterator] checks in this
    order: the collection is a sequence ([TypeError]), it is not empty
    ([ValueError]), every dataset has the element specification of the first
    ([ValueError]), and [federated_type] is a [FederatedType] ([TypeError]).
    A failed construction leaves the process as it was; a successful one adds
    the new iterator and nothing else. *)
Theorem iterator_constructor_checks p l ft :
  let out := DatasetDataSourceIterator.__init__ l ft p in
  (forall l' ft', heap p !! l = Some (IteratorObject l' ft')
                  \/ heap p !! l = Some (DataSourceObject l' ft') ->
     exists msg, out = (Raise (TypeError msg), p))
  /\ (heap p !! l = Some (ListObject []) ->
      out = (Raise (ValueError empty_list_message), p))
  /\ (forall datasets first d,
        heap p !! l = Some (ListObject datasets) ->
        datasets !! 0%nat = Some first -> d ∈ datasets ->
        tf_data.element_spec d <> tf_data.element_spec first ->
        exists msg, out = (Raise (ValueError msg), p))
  /\ (forall datasets,
        heap p !! l = Some (ListObject datasets) ->
        datasets <> [] -> homogeneous datasets -> is_federated ft = false ->
        exists msg, out = (Raise (TypeError msg), p))
  /\ (forall e p', out = (Raise e, p') -> p' = p)
  /\ (forall it p', out = (Ok it, p') ->
        it = length (heap p)
        /\ heap p' = heap p ++ [IteratorObject l ft]
        /\ random_state p' = random_state p
        /\ is_federated ft = true
        /\ exists datasets,
             heap p !! l = Some (ListObject datasets)
             /\ datasets <> [] /\ homogeneous datasets).
Proof.
  intros out. subst out. split; [|split; [|split; [|split; [|split]]]].
  - intros l' ft' [Hl|Hl];
      unfold DatasetDataSourceIterator.__init__, load, mbind, M_bind; rewrite Hl;
      by eexists.
  - intros Hl. unfold DatasetDataSourceIterator.__init__, load, mbind, M_bind.
    by rewrite Hl.
  - intros datasets first d Hl Hfirst Hin Hne. destruct datasets as [|d0 rest]; [done|].
    rewrite (iterator_init_unfold p l ft d0 rest Hl).
    destruct (loop_rejects (d0 :: rest) first (d0 :: rest) None d Hfirst Hin Hne)
      as [msg ->].
    by exists msg.
  - intros datasets Hl Hne Hhom Hft. destruct datasets as [|first rest]; [done|].
    rewrite (iterator_init_unfold p l ft first rest Hl).
    rewrite (loop_accepts (first :: rest) first (first :: rest) None eq_refl).
    + rewrite Hft. by eexists.
    + intros d Hd. by apply (Hhom first d).
  - intros e p'.
    assert (Hsame : forall r : py_result nat, (r, p) = (Raise e, p') -> p' = p).
    { intros r Heq. apply (f_equal snd) in Heq. by symmetry. }
    destruct (heap p !! l) as [o|] eqn:Hl.
    + destruct o as [items| |].
      * destruct items as [|first rest].
        -- unfold DatasetDataSourceIterator.__init__, load, mbind, M_bind. rewrite Hl.
           apply Hsame.
        -- rewrite (iterator_init_unfold p l ft first rest Hl).
           destruct (for_dataset_in_datasets _ _ _); [|apply Hsame].
           destruct (is_federated ft); [discriminate|apply Hsame].
      * unfold DatasetDataSourceIterator.__init__, load, mbind, M_bind. rewrite Hl.
        apply Hsame.
      * unfold DatasetDataSourceIterator.__init__, load, mbind, M_bind. rewrite Hl.
        apply Hsame.
    + unfold DatasetDataSourceIterator.__init__, load, mbind, M_bind. rewrite Hl.
      apply Hsame.
  - intros it p' Hinit.
    destruct (heap p !! l) as [[datasets| |]|] eqn:Hl;
      try (unfold DatasetDataSourceIterator.__init__, load, mbind, M_bind in Hinit;
           rewrite Hl in Hinit; discriminate).
    destruct (iterator_init_accepted p l ft datasets it p' Hl Hinit)
      as (Hne & Hhom & Hft & Hit & Hheap).
    repeat split; try done.
    + destruct datasets as [|first rest]; [done|].
      rewrite (iterator_init_unfold p l ft first rest Hl) in Hinit.
      destruct (for_dataset_in_datasets _ _ _); [|discriminate].
      rewrite Hft in Hinit. by injection Hinit as _ <-.
    + by exists datasets.
Qed.
End iterator_validation.

Section generator.
Context {G : Type} `{!Random G} `{!TypeRepr}.
Implicit Types (p : process G) (datasets : list tf_data.Dataset).

Lemma advance_succ (k : nat) (g : G) :
  advance (S k) g = advance k (genrand_res53 g).2.
Proof. unfold advance. by rewrite Nat.iter_succ_r. Qed.

Lemma choices_advances {A} (population : list A) (k : nat) p :
  (k = 0%nat \/ population <> []) ->
  exists items,
    random.choices population k p =
    (Ok items, {| heap := heap p; random_state := advance k (random_state p) |})
    /\ length items = k.
Proof.
  revert p. induction k as [|k IH]; intros p Hk.
  - exists []. simpl. by destruct p.
  - destruct Hk as [|Hne]; [discriminate|].
    set (n := Z.of_nat (length population)).
    assert (Hn : (0 < n)%Z).
    { subst n. destruct population; [done|]. simpl. lia. }
    destruct (genrand_res53 (random_state p)) as [m g] eqn:Hm.
    assert (Hidx : (Z.to_nat ((m mod 2 ^ 53) * n / 2 ^ 53) < length population)%nat).
    { pose proof (Z.mod_pos_bound m (2 ^ 53) ltac:(lia)) as Hb.
      assert ((m mod 2 ^ 53) * n / 2 ^ 53 < n)%Z.
      { apply Z.div_lt_upper_bound; [lia|]. nia. }
      assert (0 <= (m mod 2 ^ 53) * n / 2 ^ 53)%Z.
      { apply Z.div_pos; [nia|lia]. }
      subst n. lia. }
    destruct (lookup_lt_is_Some_2 _ _ Hidx) as [x Hx].
    destruct (IH {| heap := heap p; random_state := g |}) as (items & Hch & Hlen);
      [by right|].
    exists (x :: items). split; [|simpl; by rewrite Hlen].
    rewrite advance_succ, Hm.
    simpl. unfold mbind at 1, M_bind at 1. unfold random.random53. rewrite Hm.
    fold n. rewrite Hx. unfold mbind, M_bind. by rewrite Hch.
Qed.

(** X7. A [select] that is accepted draws exactly as many variates from the
    generator as the clients it was asked for, and touches nothing else; a
    [select] that is rejected draws none. *)
Theorem select_draws_one_variate_per_client p self l ft datasets number_of_clients :
  heap p !! self = Some (IteratorObject l ft) ->
  heap p !! l = Some (ListObject datasets) ->
  let out := DatasetDataSourceIterator.select self number_of_clients p in
  (forall k, number_of_clients = Some k ->
     (0 <= k <= Z.of_nat (length datasets))%Z ->
     out.2 = {| heap := heap p;
                random_state := advance (Z.to_nat k) (random_state p) |})
  /\ (number_of_clients = None
      \/ (exists k, number_of_clients = Some k
                    /\ (k < 0 \/ k > Z.of_nat (length datasets))%Z) ->
      out.2 = p).
Proof.
  intros Hself Hl out. subst out.
  rewrite (select_unfold p self l ft datasets _ Hself Hl). split.
  - intros k -> Hk.
    replace ((k <? 0) || (k >? Z.of_nat (length datasets)))%Z with false
      by (symmetry; by apply out_of_range_false).
    destruct (choices_advances datasets (Z.to_nat k) p) as (items & -> & _); [|done].
    destruct datasets; [left|by right]. simpl in Hk. lia.
  - intros [->|(k & -> & Hk)]; [done|].
    replace ((k <? 0) || (k >? Z.of_nat (length datasets)))%Z with true; [done|].
    symmetry. by apply out_of_range_true.
Qed.
End generator.

Section pipeline.
Context {G : Type} `{!Random G} `{!TypeRepr}.
Implicit Types (p : process G) (datasets : list tf_data.Dataset).

Lemma source_init_accepts p l datasets first :
  heap p !! l = Some (ListObject datasets) ->
  datasets !! 0%nat = Some first -> homogeneous datasets ->
  DatasetDataSource.__init__ l p =
  (Ok (length (heap p)),
   {| heap := heap p ++ [DataSourceObject l
                           (FederatedType (SequenceType (tf_data.element_spec first))
                              CLIENTS)];
      random_state := random_state p |}).
Proof.
  intros Hl Hfirst Hhom. destruct datasets as [|d rest]; [done|].
  injection Hfirst as ->.
  rewrite (source_init_unfold p l first rest Hl).
  rewrite (loop_accepts (first :: rest) first (first :: rest) None eq_refl); [done|].
  intros d Hd. by apply (Hhom first d).
Qed.

(** X8. From a non-empty homogeneous list of datasets, constructing the data
    source, asking it for an iterator and selecting [k] clients with
    0 <= k <= N all succeed: the selection has [k] datasets of the list, the
    data source and the iterator report the same federated type, the sequence
    of the element specification placed at [CLIENTS], and the process has
    gained the two objects and nothing else. *)
Theorem data_source_pipeline p l datasets first k :
  heap p !! l = Some (ListObject datasets) ->
  datasets !! 0%nat = Some first -> homogeneous datasets ->
  (0 <= k <= Z.of_nat (length datasets))%Z ->
  let ft := FederatedType (SequenceType (tf_data.element_spec first)) CLIENTS in
  let src := length (heap p) in
  let it := S (length (heap p)) in
  exists p1 p2 items p3,
    DatasetDataSource.__init__ l p = (Ok src, p1)
    /\ DatasetDataSource.iterator src p1 = (Ok it, p2)
    /\ DatasetDataSourceIterator.select it (Some k) p2 = (Ok items, p3)
    /\ length items = Z.to_nat k
    /\ (forall x, x ∈ items -> x ∈ datasets)
    /\ DatasetDataSource.federated_type src p3 = (Ok ft, p3)
    /\ DatasetDataSourceIterator.federated_type it p3 = (Ok ft, p3)
    /\ heap p3 = heap p ++ [DataSourceObject l ft; IteratorObject l ft].
Proof.
  intros Hl Hfirst Hhom Hk ft src it.
  assert (Hne : datasets <> []) by (intros ->; discriminate).
  assert (Hlt : (l < length (heap p))%nat) by (by eapply lookup_lt_Some).
  set (p1 := {| heap := heap p ++ [DataSourceObject l ft];
                random_state := random_state p |}).
  set (p2 := {| heap := heap p1 ++ [IteratorObject l ft];
                random_state := random_state p1 |}).
  assert (Hl1 : heap p1 !! l = Some (ListObject datasets)).
  { simpl. by rewrite lookup_app_l. }
  assert (Hsrc1 : heap p1 !! src = Some (DataSourceObject l ft)).
  { simpl. apply lookup_new_object. }
  assert (Hl2 : heap p2 !! l = Some (ListObject datasets)).
  { simpl. rewrite lookup_app_l; [done|]. rewrite length_app. simpl. lia. }
  assert (Hlen1 : length (heap p1) = it).
  { simpl. rewrite length_app. simpl. subst it. lia. }
  assert (Hit2 : heap p2 !! it = Some (IteratorObject l ft)).
  { rewrite <- Hlen1. simpl. apply lookup_new_object. }
  assert (Hsrc2 : heap p2 !! src = Some (DataSourceObject l ft)).
  { simpl. rewrite lookup_app_l; [done|]. rewrite length_app. simpl. subst src. lia. }
  destruct (choices_draws datasets (Z.to_nat k) p2) as (items & g & Hch & Hlen & Hin).
  { destruct datasets; [done|by right]. }
  exists p1, p2, items, {| heap := heap p2; random_state := g |}.
  split; [by apply (source_init_accepts p l datasets first)|].
  split.
  { rewrite (source_iterator_unfold p1 src l ft Hsrc1), <- Hlen1.
    by apply (iterator_init_accepts p1 l ft datasets). }
  split.
  { rewrite (select_unfold p2 it l ft datasets _ Hit2 Hl2).
    replace ((k <? 0) || (k >? Z.of_nat (length datasets)))%Z with false
      by (symmetry; by apply out_of_range_false).
    done. }
  split; [done|]. split; [done|].
  split.
  { unfold DatasetDataSource.federated_type, DatasetDataSource.fields, load,
      mbind, M_bind.
    cbn [heap]. by rewrite Hsrc2. }
  split.
  { unfold DatasetDataSourceIterator.federated_type, DatasetDataSourceIterator.fields,
      load, mbind, M_bind.
    cbn [heap]. by rewrite Hit2. }
  simpl. by rewrite <- app_assoc.
Qed.

(** X9. The iterator holds the caller's list, not a copy: once the caller has
    emptied the list the iterator was constructed on, [select] on that
    iterator returns the empty selection for 0 clients and raises the
    [ValueError] of its check for every other count. *)
Theorem select_reads_the_shared_list p l ft it p1 p2 k :
  DatasetDataSourceIterator.__init__ l ft p = (Ok it, p1) ->
  list_clear l p1 = (Ok tt, p2) ->
  DatasetDataSourceIterator.select it (Some k) p2 =
  if (k =? 0)%Z then (Ok [], p2)
  else (Raise (ValueError DatasetDataSourceIterator.select_message), p2).
Proof.
  intros Hinit Hclear.
  assert (exists datasets, heap p !! l = Some (ListObject datasets)) as [datasets Hl].
  { unfold DatasetDataSourceIterator.__init__, load, mbind, M_bind in Hinit.
    destruct (heap p !! l) as [[datasets| |]|]; try discriminate. by exists datasets. }
  destruct (iterator_init_accepted p l ft datasets it p1 Hl Hinit)
    as (_ & _ & _ & Hit & Hheap).
  assert (Hlt : (l < length (heap p))%nat) by (by eapply lookup_lt_Some).
  assert (Hl1 : heap p1 !! l = Some (ListObject datasets)).
  { by rewrite Hheap, lookup_app_l. }
  unfold list_clear in Hclear. rewrite Hl1 in Hclear. injection Hclear as <-.
  rewrite (select_unfold _ it l ft []).
  - change (Z.of_nat (length [])) with 0%Z.
    destruct (k =? 0)%Z eqn:Hk.
    + apply Z.eqb_eq in Hk as ->. reflexivity.
    + apply Z.eqb_neq in Hk.
      replace ((k <? 0) || (k >? 0))%Z with true; [reflexivity|].
      symmetry. apply out_of_range_true. lia.
  - simpl. rewrite list_lookup_insert_ne by lia.
    rewrite Hheap, Hit. apply lookup_new_object.
  - simpl. apply list_lookup_insert_eq. rewrite Hheap, length_app. lia.
Qed.
End pipeline.

(** ** Equality of value references: outcomes *)

Section reference_equality_more.
Context {raw St : Type}.
Variable py_eq : py_value raw -> py_value raw -> py_result (py_value raw).
Variable truth : py_value raw -> py_result bool.
Variable py_list : py_value raw -> M St (list (nat * py_value raw)).
Import NumpyValueReference.

Lemma item_eq_raises (x y : nat * py_value raw) e :
  item_eq py_eq truth x y = Raise e ->
  x.1 <> y.1
  /\ (py_eq x.2 y.2 = Raise e \/ exists r, py_eq x.2 y.2 = Ok r /\ truth r = Raise e).
Proof.
  unfold item_eq. destruct (bool_decide_reflect (x.1 = y.1)) as [Hid|Hid];
    [discriminate|].
  destruct (py_eq x.2 y.2) as [r|e0]; simpl.
  - intros Hr. split; [done|]. right. by exists r.
  - intros [= <-]. split; [done|]. by left.
Qed.

Lemma items_eq_raises (l l' : list (nat * py_value raw)) e :
  items_eq py_eq truth l l' = Raise e ->
  exists x y,
    (x, y) ∈ zip l l' /\ x.1 <> y.1
    /\ (py_eq x.2 y.2 = Raise e \/ exists r, py_eq x.2 y.2 = Ok r /\ truth r = Raise e).
Proof.
  revert l'. induction l as [|x l IH]; intros [|y l']; simpl; try discriminate.
  destruct (item_eq py_eq truth x y) as [[|]|e0] eqn:Hxy; simpl.
  - intros Hrest. destruct (IH l' Hrest) as (x' & y' & Hin & Hrest').
    exists x', y'. split; [by right|done].
  - discriminate.
  - intros [= <-]. exists x, y. split; [by left|]. by apply item_eq_raises.
Qed.

(** X11. [__eq__] answers [NotImplemented] exactly when the other object is
    another object and no [NumpyValueReference]. It raises only between two
    different references of one type signature, and then only what
    [list(...)] of one of the two values raises or what [==], or the truth
    value of what it returns, raises on a pair of different elements at one
    place of the two lists (sequence type), or what [==] on the raw values
    raises (other types). *)
Theorem reference_equality_outcomes (self : instance) (other : nat * py_value raw)
    (s : St) :
  (forall s',
     __eq__ py_eq truth py_list self other s = (Ok NotImplemented, s')
     <-> id self <> other.1 /\ get_value other.2 = None /\ s' = s)
  /\ (forall e s',
        __eq__ py_eq truth py_list self other s = (Raise e, s') ->
        id self <> other.1
        /\ exists other_value,
             other.2 = NumpyValueRef other_value (_type_signature self)
             /\ if is_sequence (_type_signature self)
                then
                  py_list (_value self) s = (Raise e, s')
                  \/ (exists l s1,
                        py_list (_value self) s = (Ok l, s1)
                        /\ py_list other_value s1 = (Raise e, s'))
                  \/ (exists l s1 l',
                        py_list (_value self) s = (Ok l, s1)
                        /\ py_list other_value s1 = (Ok l', s')
                        /\ length l = length l'
                        /\ exists x y,
                             (x, y) ∈ zip l l' /\ x.1 <> y.1
                             /\ (py_eq x.2 y.2 = Raise e
                                 \/ exists r, py_eq x.2 y.2 = Ok r /\ truth r = Raise e))
                else py_eq (_value self) other_value = Raise e /\ s' = s).
Proof.
  destruct other as [other_id other_object]. unfold __eq__. simpl.
  destruct (bool_decide_reflect (id self = other_id)) as [Hid|Hid].
  { split; [intros s'; split; [discriminate|by intros []]|discriminate]. }
  destruct other_object as [d|v t|es|items|items]; simpl;
    try (split; [intros s'; split; [intros [= <-]; done|by intros (_ & _ & ->)]
                |discriminate]).
  unfold mbind, M_bind, lift, mret, M_ret.
  destruct (type_ne (_type_signature self) t) eqn:Hty.
  { split; [intros s'; split; [discriminate|by intros (_ & ? & _)]|discriminate]. }
  apply type_ne_false in Hty. subst t.
  destruct (is_sequence (_type_signature self)) eqn:Hseq.
  - destruct (py_list (_value self) s) as [[l|e0] s1] eqn:Hl.
    + destruct (py_list v s1) as [[l'|e1] s2] eqn:Hl'.
      * destruct (list_eq py_eq truth l l') as [b|e2] eqn:Hb.
        -- split; [intros s'; split; [discriminate|by intros (_ & ? & _)]|discriminate].
        -- split; [intros s'; split; [discriminate|by intros (_ & ? & _)]|].
           intros e s' Heq. assert (e2 = e /\ s2 = s') as [-> ->] by (split; congruence).
           split; [done|]. exists v. split; [done|]. right. right.
           exists l, s1, l'. split; [done|]. split; [done|].
           unfold list_eq in Hb.
           destruct (bool_decide_reflect (length l = length l')) as [Hlen|Hlen];
             [|discriminate].
           split; [done|]. by apply items_eq_raises.
      * split; [intros s'; split; [discriminate|by intros (_ & ? & _)]|].
        intros e s' Heq. assert (e1 = e /\ s2 = s') as [-> ->] by (split; congruence).
        split; [done|]. exists v. split; [done|]. right. left. by exists l, s1.
    + split; [intros s'; split; [discriminate|by intros (_ & ? & _)]|].
      intros e s' Heq. assert (e0 = e /\ s1 = s') as [-> ->] by (split; congruence).
      split; [done|]. exists v. split; [done|]. by left.
  - destruct (py_eq (_value self) v) as [r|e0] eqn:Hr.
    + split; [intros s'; split; [discriminate|by intros (_ & ? & _)]|discriminate].
    + split; [intros s'; split; [discriminate|by intros (_ & ? & _)]|].
      intros e s' Heq. assert (e0 = e /\ s = s') as [-> ->] by (split; congruence).
      split; [done|]. exists v. by split.
Qed.
End reference_equality_more.

(** ** What the walkers and [invoke] return *)

Section structures_of_references.
Context {raw E : Type} `{!TypeRepr} `{!ContainerConversion raw}.
Import federated_context.
Implicit Types (self : NativeFederatedContext.t (raw := raw) (E := E))
  (value v : py_value raw) (t : tff_type).

Lemma structure_of_references_struct (refs : py_value raw) fields :
  structure_of_references refs (StructType fields) =
  match refs with
  | Struct elements => fields_prefix structure_of_references fields elements
  | _ => false
  end.
Proof. reflexivity. Qed.

Lemma fields_wrapped fields :
  Forall (fun fld => forall value refs,
            _create_structure_of_value_references value fld.2 = Ok refs ->
            structure_of_references refs fld.2 = true) fields ->
  forall (values : list (py_value raw)) refs,
    zip_walk _create_structure_of_value_references fields values = Ok refs ->
    fields_prefix structure_of_references fields refs = true.
Proof.
  induction 1 as [|[name t] fields Ht _ IH]; intros [|v values] refs; simpl;
    try (intros [= <-]; done).
  destruct (_create_structure_of_value_references v t) as [r|] eqn:Hr; simpl;
    [|discriminate].
  destruct (zip_walk _create_structure_of_value_references fields values)
    as [rest|] eqn:Hrest; simpl; [|discriminate].
  intros [= <-]. simpl.
  pose proof (Ht v r Hr) as Hshape. simpl in Hshape.
  by rewrite bool_decide_true, Hshape, (IH values rest Hrest).
Qed.

Lemma create_shapes_references t :
  forall value refs,
    _create_structure_of_value_references value t = Ok refs ->
    structure_of_references refs t = true.
Proof.
  induction t as [d s|fields IH|t _|t p IH| | |] using tff_type_nested_ind;
    intros value refs; try (simpl; discriminate).
  - simpl. intros [= <-]. apply (type_eqb_refl (TensorType d s)).
  - intros Hwrap. rewrite create_struct in Hwrap.
    destruct (structure.from_container value) as [es|]; [|discriminate].
    simpl in Hwrap.
    destruct (zip_walk _ fields _) as [rs|] eqn:Hrs; [|discriminate].
    injection Hwrap as <-. rewrite structure_of_references_struct.
    by apply (fields_wrapped fields IH (structure.iter es)).
  - simpl. intros [= <-]. apply (type_eqb_refl (SequenceType t)).
  - apply IH.
Qed.

(** X12. What Wrap returns is a structure of [NumpyValueReference]s for the
    type signature: a reference carrying the tensor or sequence type of the
    leaf at every leaf, and at every struct node a [Struct] under the names
    of the fields. And Unwrap, under that type signature, accepts every
    structure of references for it. *)
Theorem structures_of_references_are_exchanged t :
  (forall value refs,
     _create_structure_of_value_references value t = Ok refs ->
     structure_of_references refs t = true)
  /\ (forall refs : py_value raw,
        structure_of_references refs t = true ->
        exists value, _materialize_structure_of_value_references refs t = Ok value).
Proof.
  split; [apply create_shapes_references|].
  induction t as [d s|fields IH|t _|t p IH| | |] using tff_type_nested_ind;
    intros refs Hshape; try (simpl in Hshape; discriminate).
  - by eexists.
  - rewrite structure_of_references_struct in Hshape.
    destruct refs as [| |es| |]; try discriminate.
    rewrite materialize_struct. simpl.
    assert (Hzip : exists es',
              zip_walk _materialize_structure_of_value_references fields (structure.iter es)
              = Ok es').
    { revert es Hshape. induction IH as [|[name t] fields Ht _ IHf];
        intros [|[name' r] es]; simpl; try (by eexists); try discriminate.
      rewrite !andb_true_iff. intros [[_ Hr] Hes].
      destruct (Ht r Hr) as [v Hv]. simpl in Hv. rewrite Hv. simpl.
      destruct (IHf es Hes) as [es' Hes']. rewrite Hes'. by eexists. }
    destruct Hzip as [es' ->]. by eexists.
  - by eexists.
  - simpl in *. by apply IH.
Qed.

Lemma bind_returns {St A B} (m : M St A) (f : A -> M St B) s b s' :
  (m ≫= f) s = (Ok b, s') ->
  exists a s0, m s = (Ok a, s0) /\ f a s0 = (Ok b, s').
Proof.
  unfold mbind, M_bind. destruct (m s) as [[a|e] s0]; [|discriminate].
  intros Hf. by exists a, s0.
Qed.

(** X13. When [invoke] returns, the engine's [ingest] has returned on the
    argument and the parameter type, in the engine's state of before the call
    (the argument is taken as it is when the computation declares no
    parameter); the engine's [invoke] has returned on what [ingest] returned,
    in the state [ingest] left, and has left the engine's state of after the
    call; and what [invoke] returns is the native-container conversion of the
    structure of [NumpyValueReference]s, for the result type of the
    computation, that Wrap created from the engine's result. *)
Theorem invoke_returns_references self comp arg (w w' : world raw E) out :
  NativeFederatedContext.invoke self comp arg w = (Ok out, w') ->
  let result_type := computation_base.result (computation_base.type_signature comp) in
  exists arg' s0,
    match computation_base.parameter (computation_base.type_signature comp) with
    | Some parameter =>
        context_base.ingest (NativeFederatedContext._context self) arg parameter
          (engine_state w) = (Returned arg', s0)
    | None => arg' = arg /\ s0 = engine_state w
    end
    /\ exists result refs,
         context_base.invoke (NativeFederatedContext._context self) comp arg' s0
         = (Returned result, engine_state w')
         /\ _create_structure_of_value_references result result_type = Ok refs
         /\ structure_of_references refs result_type = true
         /\ type_to_py_container refs result_type = Returned out.
Proof.
  intros Hinvoke result_type. unfold NativeFederatedContext.invoke in Hinvoke.
  fold result_type in Hinvoke.
  destruct (contains_only_server_placed_data result_type); [|discriminate].
  simpl in Hinvoke.
  apply bind_returns in Hinvoke as (arg' & w0 & Hingest & Hinvoke).
  apply bind_returns in Hinvoke as (res0 & w1 & Hcall & Hinvoke).
  apply bind_returns in Hinvoke as (refs & w2 & Hwrap & Hinvoke).
  apply bind_returns in Hinvoke as (out' & w3 & Hconv & Hret).
  unfold lift in Hwrap, Hconv. unfold mret, M_ret in Hret.
  injection Hret as <- <-. injection Hwrap as Hwrap <-. injection Hconv as Hconv <-.
  unfold NativeFederatedContext.context_invoke in Hcall.
  destruct (context_base.invoke _ comp arg' (engine_state w0)) as [[res|what] s'] eqn:Hengine;
    simpl in Hcall; [|discriminate].
  injection Hcall as <- <-. simpl.
  exists arg', (engine_state w0). split.
  - destruct (computation_base.parameter (computation_base.type_signature comp))
      as [parameter|].
    + unfold NativeFederatedContext.context_ingest in Hingest.
      destruct (context_base.ingest _ arg parameter (engine_state w))
        as [[a|what] s0]; simpl in Hingest; [|discriminate].
      by injection Hingest as <- <-.
    + unfold mret, M_ret in Hingest. by injection Hingest as <- <-.
  - exists res, refs. split; [done|]. split; [done|].
    split; [by apply (create_shapes_references result_type res)|].
    destruct (type_to_py_container refs result_type); simpl in Hconv; [congruence|discriminate].
Qed.
End structures_of_references.

(** ** The error of a heterogeneous collection *)

Section first_mismatch.
Context {G : Type} `{!Random G} `{!TypeRepr}.
Implicit Types (p : process G) (datasets good rest : list tf_data.Dataset).

Lemma loop_stops_at_first_mismatch datasets first good d rest local :
  datasets !! 0%nat = Some first ->
  (forall x, x ∈ good -> tf_data.element_spec x = tf_data.element_spec first) ->
  tf_data.element_spec d <> tf_data.element_spec first ->
  for_dataset_in_datasets datasets (good ++ d :: rest) local =
  Raise (ValueError (type_specification_message (tf_data.element_spec first)
                       (tf_data.element_spec d))).
Proof.
  intros Hfirst Hgood Hd. revert local.
  induction good as [|x good IH]; intros local; simpl; rewrite Hfirst.
  - apply type_ne_true in Hd. by rewrite Hd.
  - assert (Hx : type_ne (tf_data.element_spec x) (tf_data.element_spec first) = false).
    { apply type_ne_false, Hgood. by left. }
    rewrite Hx. apply IH. intros y Hy. apply Hgood. by right.
Qed.

(** X14. On a heterogeneous collection both constructors raise the
    [ValueError] whose message names the element specification of the first
    dataset and that of the first dataset, in the order of the collection,
    whose specification differs from it; the datasets after that one are not
    looked at, and the process is left as it was. *)
Theorem constructors_report_first_mismatch p l first good d rest :
  heap p !! l = Some (ListObject (first :: good ++ d :: rest)) ->
  (forall x, x ∈ good -> tf_data.element_spec x = tf_data.element_spec first) ->
  tf_data.element_spec d <> tf_data.element_spec first ->
  DatasetDataSource.__init__ l p =
    (Raise (ValueError (type_specification_message (tf_data.element_spec first)
                          (tf_data.element_spec d))), p)
  /\ forall ft,
       DatasetDataSourceIterator.__init__ l ft p =
       (Raise (ValueError (type_specification_message (tf_data.element_spec first)
                             (tf_data.element_spec d))), p).
Proof.
  intros Hl Hgood Hd.
  assert (Hloop :
    for_dataset_in_datasets (first :: good ++ d :: rest) (first :: good ++ d :: rest) None =
    Raise (ValueError (type_specification_message (tf_data.element_spec first)
                         (tf_data.element_spec d)))).
  { apply (loop_stops_at_first_mismatch (first :: good ++ d :: rest) first
             (first :: good) d rest None eq_refl); [|done].
    intros x [->|Hx]%elem_of_cons; [done|by apply Hgood]. }
  split.
  - by rewrite (source_init_unfold p l first _ Hl), Hloop.
  - intros ft. by rewrite (iterator_init_unfold p l ft first _ Hl), Hloop.
Qed.
End first_mismatch.

(** ** The further properties at concrete inputs *)

Section further_concrete.
Import examples.
#[local] Existing Instances kind_repr keep_container lcg.

Lemma walker_failures_witness :
  _materialize_structure_of_value_references (Raw 1%Z) (StructType two_fields)
  = Raise (TypeError "Expected a container.")
  /\ exists msg, TypeError "Expected a container." = TypeError msg.
Proof.
  split; [reflexivity|].
  exact (proj1 (walker_failures (Raw 1%Z) (StructType two_fields)
                  (TypeError "Expected a container.")) eq_refl).
Defined.

Lemma wrap_unwrap_wrap_witness :
  _create_structure_of_value_references three_items (StructType two_fields)
  = Ok (Struct [(Some "a", NumpyValueRef (Raw 1%Z) int32);
                (Some "b", NumpyValueRef (Raw 2%Z) int32)])
  /\ exists value',
       _materialize_structure_of_value_references
         (Struct [(Some "a", NumpyValueRef (Raw 1%Z) int32);
                  (Some "b", NumpyValueRef (Raw 2%Z) int32)]) (StructType two_fields)
       = Ok value'
       /\ _create_structure_of_value_references value' (StructType two_fields)
          = Ok (Struct [(Some "a", NumpyValueRef (Raw 1%Z) int32);
                        (Some "b", NumpyValueRef (Raw 2%Z) int32)]).
Proof.
  split; [reflexivity|].
  exact (wrap_unwrap_wrap (StructType two_fields) three_items _ eq_refl).
Defined.

Lemma walkers_ignore_placement_witness :
  _create_structure_of_value_references nested_value nested_type
  = _create_structure_of_value_references nested_value
      (StructType
         [(Some "a", int32);
          (None, StructType [(Some "x", SequenceType (TensorType "float32" []))])]).
Proof. exact (proj1 (walkers_ignore_placement nested_type nested_value)). Defined.

Lemma ingest_idempotent_witness :
  references_unnested half_wrapped (StructType two_fields) = true
  /\ NativeFederatedContext.ingest (NativeFederatedContext.__init__ counting_engine)
       half_wrapped (StructType two_fields)
     = Ok (Struct [(Some "a", Raw 1%Z); (Some "b", Raw 2%Z)])
  /\ NativeFederatedContext.ingest (NativeFederatedContext.__init__ counting_engine)
       (Struct [(Some "a", Raw 1%Z); (Some "b", Raw 2%Z)]) (StructType two_fields)
     = Ok (Struct [(Some "a", Raw 1%Z); (Some "b", Raw 2%Z)]).
Proof.
  split; [reflexivity|]. split; [reflexivity|].
  exact (ingest_idempotent (NativeFederatedContext.__init__ counting_engine)
           (StructType two_fields) half_wrapped _ eq_refl eq_refl).
Defined.

(** A reference to a reference loses one layer at each ingestion. *)
Example ingest_of_nested_reference :
  NativeFederatedContext.ingest (NativeFederatedContext.__init__ counting_engine)
    doubly_wrapped int32
  = Ok (NumpyValueRef (Raw 1%Z) int32)
  /\ NativeFederatedContext.ingest (NativeFederatedContext.__init__ counting_engine)
       (NumpyValueRef (Raw 1%Z) int32) int32
     = Ok (Raw 1%Z).
Proof. split; reflexivity. Qed.

Lemma invoke_failures_witness :
  (NativeFederatedContext.invoke (NativeFederatedContext.__init__ counting_engine)
     clients_comp (Raw 3%Z) fresh_world).1
  = Raise (ValueError
             (NativeFederatedContext.result_type_message
                (StructType [(None, FederatedType int32 CLIENTS)])))
  /\ (NativeFederatedContext.invoke (NativeFederatedContext.__init__ counting_engine)
        clients_comp (Raw 3%Z) fresh_world).2 = fresh_world.
Proof.
  split; [reflexivity|].
  destruct (invoke_failures (NativeFederatedContext.__init__ counting_engine)
              clients_comp (Raw 3%Z) fresh_world _ eq_refl) as [(_ & _ & Hw)|[Hgate _]].
  - exact Hw.
  - discriminate Hgate.
Defined.

Lemma homogeneous_one : homogeneous [dataset 0].
Proof.
  intros first d [= <-] Hd. apply list_elem_of_singleton in Hd. by subst.
Defined.

Lemma iterator_constructor_checks_witness :
  heap one_client !! 0%nat = Some (ListObject [dataset 0])
  /\ is_federated int32 = false
  /\ exists msg,
       DatasetDataSourceIterator.__init__ 0 int32 one_client
       = (Raise (TypeError msg), one_client).
Proof.
  split; [reflexivity|]. split; [reflexivity|].
  refine (proj1 (proj2 (proj2 (proj2 (iterator_constructor_checks one_client 0 int32))))
            [dataset 0] eq_refl _ homogeneous_one eq_refl).
  discriminate.
Defined.

Lemma select_draws_witness :
  heap three_clients !! 1%nat = Some (IteratorObject 0 clients_type)
  /\ heap three_clients !! 0%nat = Some (ListObject [dataset 0; dataset 1; dataset 2])
  /\ (DatasetDataSourceIterator.select 1 (Some 2%Z) three_clients).2
     = {| heap := heap three_clients;
          random_state := advance (Z.to_nat 2) (random_state three_clients) |}.
Proof.
  split; [reflexivity|]. split; [reflexivity|].
  refine (proj1 (select_draws_one_variate_per_client three_clients 1 0 clients_type
                   [dataset 0; dataset 1; dataset 2] (Some 2%Z) eq_refl eq_refl)
            2%Z eq_refl _).
  simpl. lia.
Defined.

Lemma data_source_pipeline_witness :
  heap one_client !! 0%nat = Some (ListObject [dataset 0])
  /\ [dataset 0] !! 0%nat = Some (dataset 0)
  /\ homogeneous [dataset 0]
  /\ exists p1 p2 items p3,
       DatasetDataSource.__init__ 0 one_client = (Ok 1%nat, p1)
       /\ DatasetDataSource.iterator 1 p1 = (Ok 2%nat, p2)
       /\ DatasetDataSourceIterator.select 2 (Some 1%Z) p2 = (Ok items, p3)
       /\ length items = Z.to_nat 1
       /\ (forall x, x ∈ items -> x ∈ [dataset 0])
       /\ DatasetDataSource.federated_type 1 p3 = (Ok clients_type, p3)
       /\ DatasetDataSourceIterator.federated_type 2 p3 = (Ok clients_type, p3)
       /\ heap p3 = heap one_client
                    ++ [DataSourceObject 0 clients_type; IteratorObject 0 clients_type].
Proof.
  split; [reflexivity|]. split; [reflexivity|]. split; [exact homogeneous_one|].
  refine (data_source_pipeline one_client 0 [dataset 0] (dataset 0) 1%Z
            eq_refl eq_refl homogeneous_one _).
  simpl. lia.
Defined.

Lemma select_reads_the_shared_list_witness :
  DatasetDataSourceIterator.__init__ 0 clients_type one_client
  = (Ok 1%nat, one_client_iterated)
  /\ list_clear 0 one_client_iterated = (Ok tt, one_client_emptied)
  /\ DatasetDataSourceIterator.select 1 (Some 1%Z) one_client_emptied
     = (Raise (ValueError DatasetDataSourceIterator.select_message), one_client_emptied).
Proof.
  split; [reflexivity|]. split; [reflexivity|].
  exact (select_reads_the_shared_list one_client 0 clients_type 1 one_client_iterated
           one_client_emptied 1%Z eq_refl eq_refl).
Defined.

Lemma reference_equality_outcomes_witness :
  NumpyValueReference.__eq__ np_eq np_truth np_list number_reference
    (2%nat, Raw (number 7)) shared_nan
  = (Ok NumpyValueReference.NotImplemented, shared_nan)
  /\ NumpyValueReference.__eq__ np_eq np_truth np_list sequence_reference
       (2%nat, NumpyValueRef (Raw (iterable 1)) float_sequence) two_arrays
     = (Raise (ValueError ambiguous_message), two_arrays)
  /\ NumpyValueReference.id sequence_reference <> 2%nat
  /\ exists other_value,
       NumpyValueRef (Raw (iterable 1)) float_sequence
       = NumpyValueRef other_value float_sequence
       /\ (np_list (Raw (iterable 0)) two_arrays
           = (Raise (ValueError ambiguous_message), two_arrays)
           \/ (exists l s1,
                 np_list (Raw (iterable 0)) two_arrays = (Ok l, s1)
                 /\ np_list other_value s1
                    = (Raise (ValueError ambiguous_message), two_arrays))
           \/ (exists l s1 l',
                 np_list (Raw (iterable 0)) two_arrays = (Ok l, s1)
                 /\ np_list other_value s1 = (Ok l', two_arrays)
                 /\ length l = length l'
                 /\ exists x y,
                      (x, y) ∈ zip l l' /\ x.1 <> y.1
                      /\ (np_eq x.2 y.2 = Raise (ValueError ambiguous_message)
                          \/ exists r,
                               np_eq x.2 y.2 = Ok r
                               /\ np_truth r = Raise (ValueError ambiguous_message)))).
Proof.
  split.
  - apply (proj1 (reference_equality_outcomes np_eq np_truth np_list number_reference
                    (2%nat, Raw (number 7)) shared_nan)).
    split; [discriminate|]. split; reflexivity.
  - split; [reflexivity|].
    exact (proj2 (reference_equality_outcomes np_eq np_truth np_list sequence_reference
                    (2%nat, NumpyValueRef (Raw (iterable 1)) float_sequence) two_arrays)
             (ValueError ambiguous_message) two_arrays eq_refl).
Defined.

Lemma structures_of_references_witness :
  _create_structure_of_value_references nested_value nested_type
  = Ok (Struct
          [(Some "a", NumpyValueRef (Raw 1%Z) int32);
           (None, Struct [(Some "x", NumpyValueRef (Raw 2%Z)
                                        (SequenceType (TensorType "float32" [])))])])
  /\ structure_of_references
       (Struct
          [(Some "a", NumpyValueRef (Raw 1%Z) int32);
           (None, Struct [(Some "x", NumpyValueRef (Raw 2%Z)
                                        (SequenceType (TensorType "float32" [])))])])
       nested_type = true.
Proof.
  split; [reflexivity|].
  exact (proj1 (structures_of_references_are_exchanged nested_type) nested_value _ eq_refl).
Defined.

Lemma invoke_returns_references_witness :
  NativeFederatedContext.invoke (NativeFederatedContext.__init__ counting_engine)
    unary_comp (Raw 3%Z) fresh_world
  = (Ok (NumpyValueRef (Raw 5%Z) int32),
     {| engine_state := 2%nat;
        calls := [CallIngest (Raw 3%Z) int32; CallInvoke unary_comp (Raw 3%Z)] |})
  /\ exists arg' s0,
       context_base.ingest counting_engine (Raw 3%Z) int32 0%nat = (Returned arg', s0)
       /\ exists result refs,
            context_base.invoke counting_engine unary_comp arg' s0
            = (Returned result, 2%nat)
            /\ _create_structure_of_value_references result (FederatedType int32 SERVER)
               = Ok refs
            /\ structure_of_references refs (FederatedType int32 SERVER) = true
            /\ type_to_py_container refs (FederatedType int32 SERVER)
               = Returned (NumpyValueRef (Raw 5%Z) int32).
Proof.
  split; [reflexivity|].
  exact (invoke_returns_references (NativeFederatedContext.__init__ counting_engine)
           unary_comp (Raw 3%Z) fresh_world _ _ eq_refl).
Defined.

Lemma constructors_report_first_mismatch_witness :
  heap mixed_clients !! 0%nat = Some (ListObject (dataset 0 :: [] ++ odd_dataset :: []))
  /\ tf_data.element_spec odd_dataset <> tf_data.element_spec (dataset 0)
  /\ DatasetDataSource.__init__ 0 mixed_clients
     = (Raise (ValueError (type_specification_message int32 (TensorType "string" []))),
        mixed_clients).
Proof.
  assert (Hd : tf_data.element_spec odd_dataset <> tf_data.element_spec (dataset 0))
    by discriminate.
  split; [reflexivity|]. split; [exact Hd|].
  refine (proj1 (constructors_report_first_mismatch mixed_clients 0 (dataset 0) []
                   odd_dataset [] eq_refl _ Hd)).
  intros x Hx. by apply elem_of_nil in Hx.
Defined.

Lemma round_trip_takes_names_from_type_witness :
  walkable (StructType two_fields) = true
  /\ conforms (PyList [Raw 1%Z; Raw 2%Z]) (StructType two_fields) = true
  /\ exists refs value',
       _create_structure_of_value_references (PyList [Raw 1%Z; Raw 2%Z])
         (StructType two_fields) = Ok refs
       /\ _materialize_structure_of_value_references refs (StructType two_fields)
          = Ok value'
       /\ matches value' (StructType two_fields) = true
       /\ unnamed value' (StructType two_fields)
          = unnamed (PyList [Raw 1%Z; Raw 2%Z]) (StructType two_fields).
Proof.
  split; [reflexivity|]. split; [reflexivity|].
  exact (round_trip_takes_names_from_type (StructType two_fields)
           (PyList [Raw 1%Z; Raw 2%Z]) eq_refl eq_refl).
Defined.
End further_concrete.
